(** * LauraDB Python client: expression builders, request path and facade

  A shallow embedding of [lauradb/query.py], [lauradb/aggregation.py],
  [lauradb/client.py] and [lauradb/collection.py], followed by the
  properties of the client that the specification states about them. *)

From Stdlib Require Import ZArith SpecFloat Ascii.
From stdpp Require Import base option list strings pretty.

Set Warnings "-register-all".
Open Scope string_scope.
Open Scope list_scope.

(** ** Python values, dictionaries, exceptions *)

Module Py.

(** The values that travel through the client: what [json] can encode and
    decode.  A dictionary keeps its entries in insertion order, which is
    the order in which [json.dumps] writes them on the wire. *)
Inductive value : Type :=
| VNone
| VBool (b : bool)
| VInt (n : Z)
| VFloat (x : spec_float)
| VStr (s : string)
| VList (items : list value)
| VDict (entries : list (string * value)).

(** A [dict] with string keys.  Python never holds one key twice; the
    operations below start from [] and keep that. *)
Definition dict (A : Type) : Type := list (string * A).

(** [d.get(k)], with [None] for Python's missing key. *)
Fixpoint dict_get {A} (k : string) (d : dict A) : option A :=
  match d with
  | [] => None
  | (k', v) :: d' => if String.eqb k' k then Some v else dict_get k d'
  end.

(** [k in d] *)
Definition dict_contains {A} (k : string) (d : dict A) : bool :=
  match dict_get k d with Some _ => true | None => false end.

(** [d[k] = v]: an existing key keeps its place, a new one goes last. *)
Fixpoint dict_set {A} (k : string) (v : A) (d : dict A) : dict A :=
  match d with
  | [] => [(k, v)]
  | (k', v') :: d' =>
      if String.eqb k' k then (k', v) :: d' else (k', v') :: dict_set k v d'
  end.

(** [d.update(other)] *)
Definition dict_update {A} (d other : dict A) : dict A :=
  fold_left (fun acc kv => dict_set kv.1 kv.2 acc) other d.

(** The display [{k1: v1, ..., kn: vn}]: entries are stored left to
    right, so a repeated key keeps its last value. *)
Definition dict_of {A} (entries : list (string * A)) : dict A :=
  dict_update [] entries.

(** [d.get(k, default)] *)
Definition get_default {A} (k : string) (default : A) (d : dict A) : A :=
  match dict_get k d with Some v => v | None => default end.

Definition keys {A} (d : dict A) : list string := map fst d.

(** Truth value testing, as [if x:], [not x] and [x or y] use it. *)
Definition truthy (v : value) : bool :=
  match v with
  | VNone => false
  | VBool b => b
  | VInt n => negb (Z.eqb n 0)
  | VFloat (S754_zero _) => false
  | VFloat _ => true
  | VStr s => negb (String.eqb s "")
  | VList items => match items with [] => false | _ => true end
  | VDict entries => match entries with [] => false | _ => true end
  end.

(** [x or y] *)
Definition py_or (x y : value) : value := if truthy x then x else y.

(** [x is not None] *)
Definition is_not_None (v : value) : bool :=
  match v with VNone => false | _ => true end.

(** [type(v).__name__] *)
Definition type_name (v : value) : string :=
  match v with
  | VNone => "NoneType"
  | VBool _ => "bool"
  | VInt _ => "int"
  | VFloat _ => "float"
  | VStr _ => "str"
  | VList _ => "list"
  | VDict _ => "dict"
  end.

(** The subclasses of [requests.exceptions.RequestException] that the
    request path can meet. *)
Inductive request_failure : Type :=
| ConnectionError
| Timeout
| HTTPError
| JSONDecodeError.

(** Exceptions, each with the text [str(e)] gives. *)
Inductive exn : Type :=
| RequestException (kind : request_failure) (text : string)
| RuntimeError (text : string)
| ValueError (text : string)
| TypeError (text : string)
| AttributeError (text : string).

Inductive result (A : Type) : Type :=
| Ok (a : A)
| Raise (e : exn).
Arguments Ok {A} a.
Arguments Raise {A} e.

(** [obj.get(k, default)] on an arbitrary value: only a dict has [get]. *)
Definition py_get (obj : value) (k : string) (default : value) : result value :=
  match obj with
  | VDict d => Ok (get_default k default d)
  | _ => Raise (AttributeError
                  ("'" +:+ type_name obj +:+ "' object has no attribute 'get'"))
  end.

(** What the interpreter itself raises when a function of [expected]
    positional parameters, the first [required] of them without default,
    is called with [given] positional arguments.  The text names the
    function and the counts; its exact wording varies with the version of
    the interpreter. *)
Definition arity_error (name : string) (required expected given : nat) : exn :=
  if decide (given < required)%nat then
    TypeError (name +:+ "() missing " +:+ pretty (required - given)%nat
               +:+ " required positional argument(s)")
  else
    TypeError (name +:+ "() takes " +:+ pretty expected
               +:+ " positional argument(s) but " +:+ pretty given
               +:+ " were given").

(** [x > 0] for the integer literal 0: numbers compare by value, a bool
    as 0 or 1, a NaN with nothing; any other operand has no order with an
    [int]. *)
Definition py_gt_zero (x : value) : result value :=
  match x with
  | VInt n => Ok (VBool (0 <? n)%Z)
  | VBool b => Ok (VBool b)
  | VFloat f => Ok (VBool (SFltb (S754_zero false) f))
  | _ => Raise (TypeError ("'>' not supported between instances of '"
                           +:+ type_name x +:+ "' and 'int'"))
  end.

(** [v == k] for a string [k]: only an equal string is equal to it. *)
Definition equals_str (k : string) (v : value) : bool :=
  match v with
  | VStr s => String.eqb s k
  | _ => false
  end.

(** [if k in obj: item = obj[k]] for a string [k]: the item when the test
    holds, [None] when it does not.  A mapping is tested by key, a list by
    element and a string by substring, and neither of the latter two can
    be indexed by a string; the other values cannot be tested at all.
    The texts of the errors are the interpreter's and vary with its
    version. *)
Definition item_if_in (k : string) (obj : value) : result (option value) :=
  match obj with
  | VDict d => Ok (dict_get k d)
  | VList items =>
      if existsb (equals_str k) items
      then Raise (TypeError "list indices must be integers or slices, not str")
      else Ok None
  | VStr s =>
      match String.index 0 k s with
      | Some _ => Raise (TypeError "string indices must be integers")
      | None => Ok None
      end
  | _ => Raise (TypeError ("argument of type '" +:+ type_name obj
                           +:+ "' is not iterable"))
  end.

(** The line feed, and [sep.join(lines)]. *)
Definition newline : string := String (Ascii.ascii_of_nat 10) EmptyString.

Definition join (sep : string) (lines : list string) : string :=
  String.concat sep lines.

End Py.

Export Py.

(** ** [lauradb/query.py] *)

Module Query.

Definition eq (field : string) (v : value) : value :=
  VDict [(field, VDict [("$eq", v)])].
Definition ne (field : string) (v : value) : value :=
  VDict [(field, VDict [("$ne", v)])].
Definition gt (field : string) (v : value) : value :=
  VDict [(field, VDict [("$gt", v)])].
Definition gte (field : string) (v : value) : value :=
  VDict [(field, VDict [("$gte", v)])].
Definition lt (field : string) (v : value) : value :=
  VDict [(field, VDict [("$lt", v)])].
Definition lte (field : string) (v : value) : value :=
  VDict [(field, VDict [("$lte", v)])].

(** The annotations [List[Any]] and [int] of the source are not checked
    when the program runs: the operand is whatever the caller passes. *)
Definition in_ (field : string) (values : value) : value :=
  VDict [(field, VDict [("$in", values)])].
Definition nin (field : string) (values : value) : value :=
  VDict [(field, VDict [("$nin", values)])].

Definition and_ (conditions : list value) : value :=
  VDict [("$and", VList conditions)].
Definition or_ (conditions : list value) : value :=
  VDict [("$or", VList conditions)].
Definition not_ (condition : value) : value :=
  VDict [("$not", condition)].

Definition exists_ (field : string) (flag : value) : value :=
  VDict [(field, VDict [("$exists", flag)])].
Definition type_ (field : string) (type_name : value) : value :=
  VDict [(field, VDict [("$type", type_name)])].

Definition all_ (field : string) (values : value) : value :=
  VDict [(field, VDict [("$all", values)])].
Definition elem_match (field : string) (condition : value) : value :=
  VDict [(field, VDict [("$elemMatch", condition)])].
Definition size (field : string) (size : value) : value :=
  VDict [(field, VDict [("$size", size)])].

Definition regex (field : string) (pattern : value) : value :=
  VDict [(field, VDict [("$regex", pattern)])].
Definition text (search : value) : value :=
  VDict [("$text", VDict [("$search", search)])].

Definition near (field : string) (longitude latitude max_distance : value)
    : value :=
  VDict [(field, VDict [("$near",
            VDict [("coordinates", VList [longitude; latitude]);
                   ("maxDistance", max_distance)])])].
Definition geo_within (field : string) (coordinates : value) : value :=
  VDict [(field, VDict [("$geoWithin",
            VDict [("coordinates", coordinates)])])].

(** A call [Query.not_( *args )] with positional arguments: the interpreter
    binds them to the one parameter [condition] and raises [TypeError]
    itself when their number is wrong. *)
Definition call_not_ (args : list value) : result value :=
match args with
| [condition] => Ok (not_ condition)
| _ => Raise (arity_error "not_" 1 1 (List.length args))
end.

(** A call [Query.f(field, *rest)] of a field operator [f(field, operand)]. *)
Definition call_field_operator (name : string)
    (f : string -> value -> value) (field : string) (rest : list value)
    : result value :=
match rest with
| [operand] => Ok (f field operand)
| _ => Raise (arity_error name 2 2 (S (List.length rest)))
end.

Definition call_size : string -> list value -> result value :=
call_field_operator "size" size.
Definition call_in_ : string -> list value -> result value :=
call_field_operator "in_" in_.
Definition call_nin : string -> list value -> result value :=
call_field_operator "nin" nin.
Definition call_all_ : string -> list value -> result value :=
call_field_operator "all_" all_.

End Query.

(** ** [lauradb/query.py], class [UpdateBuilder] *)

Module UpdateBuilder.

(** An update document: operator name to field-to-value mapping.  The
    leaves [A] are [value] for the caller and references for [Store]. *)
Definition update_doc (A : Type) : Type := dict (dict A).

Definition set (field : string) (v : value) : update_doc value :=
  [("$set", [(field, v)])].
Definition unset (field : string) : update_doc value :=
  [("$unset", [(field, VStr "")])].
Definition rename (old_name : string) (new_name : value) : update_doc value :=
  [("$rename", [(old_name, new_name)])].
Definition current_date (field : string) : update_doc value :=
  [("$currentDate", [(field, VBool true)])].
Definition inc (field : string) (amount : value) : update_doc value :=
  [("$inc", [(field, amount)])].
Definition mul (field : string) (multiplier : value) : update_doc value :=
  [("$mul", [(field, multiplier)])].
Definition min_ (field : string) (v : value) : update_doc value :=
  [("$min", [(field, v)])].
Definition max_ (field : string) (v : value) : update_doc value :=
  [("$max", [(field, v)])].
Definition push (field : string) (v : value) : update_doc value :=
  [("$push", [(field, v)])].
Definition pull (field : string) (v : value) : update_doc value :=
  [("$pull", [(field, v)])].
Definition pull_all (field : string) (values : value) : update_doc value :=
  [("$pullAll", [(field, values)])].
Definition add_to_set (field : string) (v : value) : update_doc value :=
  [("$addToSet", [(field, v)])].
Definition pop (field : string) (position : value) : update_doc value :=
  [("$pop", [(field, position)])].
Definition bit_and (field : string) (v : value) : update_doc value :=
  [("$bit", [(field, VDict [("and", v)])])].
Definition bit_or (field : string) (v : value) : update_doc value :=
  [("$bit", [(field, VDict [("or", v)])])].
Definition bit_xor (field : string) (v : value) : update_doc value :=
  [("$bit", [(field, VDict [("xor", v)])])].

(** The body of the inner loop of [combine], for one [operator, fields]
    of [update.items()]:
    [if operator not in result: result[operator] = {}] and then
    [result[operator].update(fields)]. *)
Definition combine_entry {A} (result : update_doc A) (entry : string * dict A)
    : update_doc A :=
  let '(operator, fields) := entry in
  let result :=
    if negb (dict_contains operator result)
    then dict_set operator [] result else result in
  dict_set operator (dict_update (get_default operator [] result) fields) result.

Definition combine_update {A} (result : update_doc A) (update : update_doc A)
    : update_doc A :=
  fold_left combine_entry update result.

(** [combine( *updates )] *)
Definition combine {A} (updates : list (update_doc A)) : update_doc A :=
  fold_left combine_update updates [].

(** Specification of [combine], in the words of the composer's contract:
    merge one operator's field-to-value mapping into the result's mapping
    for that operator, last writer wins per field. *)
Definition merge_operator {A} (result : update_doc A) (operator : string)
    (fields : dict A) : update_doc A :=
  let current := match dict_get operator result with
                 | Some present => present
                 | None => []
                 end in
  dict_set operator (fold_left (fun m kv => dict_set kv.1 kv.2 m) fields current)
           result.

Fixpoint merge_all {A} (result : update_doc A) (entries : list (string * dict A))
    : update_doc A :=
  match entries with
  | [] => result
  | (operator, fields) :: rest =>
      merge_all (merge_operator result operator fields) rest
  end.

Definition combine_spec {A} (updates : list (update_doc A)) : update_doc A :=
  merge_all [] (concat updates).

(** The [(operator, field, value)] triples of one entry of an update, and
    of all the inputs, in the order the loops of [combine] meet them. *)
Definition entry_bindings {A} (entry : string * dict A)
    : list (string * string * A) :=
  map (fun kv : string * A => (entry.1, kv.1, kv.2)) entry.2.

Definition bindings {A} (updates : list (update_doc A))
    : list (string * string * A) :=
  flat_map (fun update => flat_map entry_bindings update) updates.

(** The value the last binding of [field] under [operator] gives. *)
Definition last_binding {A} (operator field : string)
    (bs : list (string * string * A)) : option A :=
  fold_left (fun found b =>
    if String.eqb b.1.1 operator && String.eqb b.1.2 field
    then Some b.2 else found) bs None.

(** [result[operator][field]], [None] when either key is missing. *)
Definition lookup2 {A} (operator field : string) (result : update_doc A)
    : option A :=
  match dict_get operator result with
  | Some fields => dict_get field fields
  | None => None
  end.

(** No key twice, at either level. *)
Definition well_formed {A} (result : update_doc A) : Prop :=
  NoDup (keys result) /\ Forall (fun entry => NoDup (keys entry.2)) result.

(** The update document as the value the facade sends. *)
Definition update_value (u : update_doc value) : value :=
  VDict (map (fun entry : string * dict value => (entry.1, VDict entry.2)) u).

End UpdateBuilder.

(** ** [lauradb/aggregation.py] *)

Module Aggregation.

Definition match_ (filter : value) : value := VDict [("$match", filter)].

(** [stage = {"_id": group_by}; stage.update(accumulators)] *)
Definition group (group_by : value) (accumulators : dict value) : value :=
  let stage := [("_id", group_by)] in
  let stage := dict_update stage accumulators in
  VDict [("$group", VDict stage)].

Definition project (fields : value) : value := VDict [("$project", fields)].
Definition sort (sort_spec : value) : value := VDict [("$sort", sort_spec)].
Definition limit (count : value) : value := VDict [("$limit", count)].
Definition skip (count : value) : value := VDict [("$skip", count)].

Definition unwind (field : value) (preserve_null : value) : value :=
  if truthy preserve_null then
    VDict [("$unwind", VDict [("path", field);
                              ("preserveNullAndEmptyArrays", VBool true)])]
  else VDict [("$unwind", field)].

Definition lookup (from_collection local_field foreign_field as_field : value)
    : value :=
  VDict [("$lookup", VDict [("from", from_collection);
                            ("localField", local_field);
                            ("foreignField", foreign_field);
                            ("as", as_field)])].

Definition sum (expression : value) : value := VDict [("$sum", expression)].
Definition avg (field : value) : value := VDict [("$avg", field)].
Definition min_ (field : value) : value := VDict [("$min", field)].
Definition max_ (field : value) : value := VDict [("$max", field)].
Definition count : value := VDict [("$count", VDict [])].
Definition push (field : value) : value := VDict [("$push", field)].
Definition add_to_set (field : value) : value := VDict [("$addToSet", field)].
Definition first (field : value) : value := VDict [("$first", field)].
Definition last (field : value) : value := VDict [("$last", field)].

End Aggregation.

(** ** The object store: [combine] with the dictionaries it shares

    Python passes dictionaries by reference.  Here a dictionary is an
    object of a store and a value held in a variable or in an entry is
    either immediate or a reference to an object, so that a write through
    one reference is seen through every other. *)

Module Store.

Abbreviation loc := nat.

Inductive ref : Type :=
| RNone
| RBool (b : bool)
| RInt (n : Z)
| RFloat (x : spec_float)
| RStr (s : string)
| RObj (l : loc).

Inductive object : Type :=
| ODict (entries : dict ref)
| OList (items : list ref).

(** Objects are never freed: a location is an index, a new object goes
    last. *)
Abbreviation heap := (list object).

Definition alloc (o : object) (h : heap) : loc * heap := (List.length h, h ++ [o]).

Definition load_dict (h : heap) (r : ref) : option (dict ref) :=
  match r with
  | RObj l => match h !! l with
              | Some (ODict entries) => Some entries
              | _ => None
              end
  | _ => None
  end.

Definition store_dict (l : loc) (entries : dict ref) (h : heap) : heap :=
  <[l := ODict entries]> h.

(** [for x in xs: body], the body working on the store; [None] when a
    step leaves the fragment modelled here (an argument that is no
    dictionary). *)
Fixpoint for_each {A} (body : heap -> A -> option heap) (xs : list A)
    (h : heap) : option heap :=
  match xs with
  | [] => Some h
  | x :: rest => match body h x with
                 | Some h' => for_each body rest h'
                 | None => None
                 end
  end.

(** One turn of the inner loop, [result] being the location of the
    dictionary under construction:
    [if operator not in result: result[operator] = {}] and then
    [result[operator].update(fields)]. *)
Definition combine_entry (result : loc) (h : heap) (entry : string * ref)
    : option heap :=
  let '(operator, fields) := entry in
  match load_dict h (RObj result) with
  | None => None
  | Some d =>
      let h :=
        if negb (dict_contains operator d) then
          let '(fresh, h) := alloc (ODict []) h in
          store_dict result (dict_set operator (RObj fresh) d) h
        else h in
      match load_dict h (RObj result) with
      | None => None
      | Some d =>
          match dict_get operator d with
          | Some (RObj target) =>
              match load_dict h (RObj target), load_dict h fields with
              | Some present, Some added =>
                  Some (store_dict target (dict_update present added) h)
              | _, _ => None
              end
          | _ => None
          end
      end
  end.

(** [for operator, fields in update.items(): ...]; the entries are read
    once: the loop body writes only to objects made by this call, never to
    [update]. *)
Definition combine_update (result : loc) (h : heap) (update : ref)
    : option heap :=
  match load_dict h update with
  | Some entries => for_each (combine_entry result) entries h
  | None => None
  end.

(** [UpdateBuilder.combine( *updates )] on the store. *)
Definition combine (updates : list ref) (h : heap) : option (ref * heap) :=
  let '(result, h) := alloc (ODict []) h in
  match for_each (combine_update result) updates h with
  | Some h => Some (RObj result, h)
  | None => None
  end.

(** Reading an update document out of the store, two levels deep: its
    operators, and for each the entries of its field dictionary. *)
Fixpoint read_entries (h : heap) (entries : dict ref)
    : option (UpdateBuilder.update_doc ref) :=
  match entries with
  | [] => Some []
  | (operator, fields) :: rest =>
      match load_dict h fields, read_entries h rest with
      | Some fs, Some rs => Some ((operator, fs) :: rs)
      | _, _ => None
      end
  end.

Definition read_update (h : heap) (r : ref)
    : option (UpdateBuilder.update_doc ref) :=
  match load_dict h r with
  | Some entries => read_entries h entries
  | None => None
  end.

(** The shape of the store while [combine] runs.  The dictionary under
    construction holds, for the operators of [acc] in order, references to
    the objects [subs], which lie from location [base] on and hold the
    field mappings of [acc]. *)
Inductive layout : loc -> UpdateBuilder.update_doc ref -> dict ref ->
                   list object -> Prop :=
| layout_nil base : layout base [] [] []
| layout_cons base operator fields acc entries subs :
    layout (S base) acc entries subs ->
    layout base ((operator, fields) :: acc) ((operator, RObj base) :: entries)
           (ODict fields :: subs).

(** [hc] is the store [h] the call started from, followed by the
    dictionary under construction and the objects it refers to, which
    together hold [acc]. *)
Definition building (h : heap) (acc : UpdateBuilder.update_doc ref)
    (hc : heap) : Prop :=
  exists entries subs,
    hc = h ++ ODict entries :: subs /\ layout (S (List.length h)) acc entries subs.

(** A store with two update documents, [{"$set": {"a": 1}}] at 1 and
    [{"$set": {"a": 2}, "$inc": {"n": 1}}] at 4, and a call that passes
    the first of them twice. *)
Definition sample_heap : heap :=
  [ ODict [("a", RInt 1)];
    ODict [("$set", RObj 0)];
    ODict [("a", RInt 2)];
    ODict [("n", RInt 1)];
    ODict [("$set", RObj 2); ("$inc", RObj 3)] ].

Definition sample_updates : list ref := [RObj 1; RObj 4; RObj 1].

End Store.

(** ** The libraries the client runs on *)

(** What [response.json()] raises for a body that does not decode.  From
    [requests] 2.27 on it is the [JSONDecodeError] of
    [requests.exceptions], a [RequestException]; in the releases before,
    it is the decoder's own [JSONDecodeError], a [ValueError] that is no
    [RequestException].  The [install_requires] of [setup.py],
    [requests>=2.25.0], admits both. *)
Inductive decode_error_class : Type :=
| DecodeRaisesRequestException
| DecodeRaisesValueError.

(** What the client takes from the libraries: [urllib]'s [urljoin], the
    text [str] gives for a value that is not a string, and the release of
    [requests], as far as the class of its decode error goes. *)
Class Library : Type := {
  urljoin : string -> string -> string;
  str_other : value -> string;
  json_error_class : decode_error_class;
}.

(** ** The HTTP layer: [requests], as the client uses it *)

Module Requests.

(** The arguments of [session.request(...)]. *)
Record request : Type := {
  method : string;
  url : string;
  json_body : option value;
  params : option value;
  request_timeout : Z;
}.

(** What [session.request] returned: the status line and what
    [response.json()] gives, the decoded body or the text of the error
    of a body that does not decode. *)
Record response : Type := {
  status_code : Z;
  reason : string;
  response_url : string;
  decoded : string + value;
}.

(** The outcome of one exchange: [session.request] raises one of the
    [RequestException]s, or returns a response. *)
Inductive reply : Type :=
| Fails (kind : request_failure) (text : string)
| Responds (r : response).

(** The world outside the process: the requests issued so far, oldest
    first, and the peer, whose reply may depend on them. *)
Record world : Type := {
  wire : list request;
  server : list request -> request -> reply;
}.

(** Computations that talk to the server and may raise. *)
Definition M (A : Type) : Type := world -> result A * world.

Definition ret {A} (a : A) : M A := fun w => (Ok a, w).

Definition raise {A} (e : exn) : M A := fun w => (Raise e, w).

Definition bind {A B} (m : M A) (k : A -> M B) : M B :=
  fun w => match m w with
           | (Ok a, w') => k a w'
           | (Raise e, w') => (Raise e, w')
           end.

Definition lift {A} (r : result A) : M A := fun w => (r, w).

(** [try: body except ...: handler] *)
Definition try_except {A} (body : M A) (handler : exn -> M A) : M A :=
  fun w => match body w with
           | (Ok a, w') => (Ok a, w')
           | (Raise e, w') => handler e w'
           end.

Definition session_request (rq : request) : M response :=
  fun w =>
    let w' := {| wire := wire w ++ [rq]; server := server w |} in
    match server w (wire w) rq with
    | Fails kind text => (Raise (RequestException kind text), w')
    | Responds r => (Ok r, w')
    end.

(** [response.raise_for_status()], as [requests] has it: a message is
    composed for a 4xx or a 5xx status, and [HTTPError] is raised when
    there is one. *)
Definition http_error_msg (r : response) : option string :=
  if decide (400 <= status_code r < 500)%Z then
    Some (pretty (status_code r) +:+ " Client Error: " +:+ reason r
          +:+ " for url: " +:+ response_url r)
  else if decide (500 <= status_code r < 600)%Z then
    Some (pretty (status_code r) +:+ " Server Error: " +:+ reason r
          +:+ " for url: " +:+ response_url r)
  else None.

Definition raise_for_status (r : response) : result unit :=
  match http_error_msg r with
  | Some msg => Raise (RequestException HTTPError msg)
  | None => Ok tt
  end.

(** [response.json()] *)
Definition json `{Library} (r : response) : result value :=
  match decoded r with
  | inl text =>
      match json_error_class with
      | DecodeRaisesRequestException =>
          Raise (RequestException JSONDecodeError text)
      | DecodeRaisesValueError => Raise (ValueError text)
      end
  | inr data => Ok data
  end.

End Requests.

Export Requests.

Notation "x <- m ;; k" := (bind m (fun x => k))
  (at level 100, m at next level, right associativity).

(** [f"{v}"] *)
Definition format_value `{Library} (v : value) : string :=
  match v with
  | VStr s => s
  | _ => str_other v
  end.

(** ** [lauradb/client.py] *)

Module Client.

Record Client : Type := {
  host : string;
  port : Z;
  https : bool;
  timeout : Z;
  base_url : string;
}.

(** [Client.__init__]; the session it mounts is the [world]. *)
Definition new (host : string) (port : Z) (https : bool) (timeout : Z)
    : Client :=
  let protocol := if https then "https" else "http" in
  {| host := host; port := port; https := https; timeout := timeout;
     base_url := protocol +:+ "://" +:+ host +:+ ":" +:+ pretty port |}.

Definition _request `{Library} (self : Client) (method path : string)
    (body params : option value) : M value :=
  let url := urljoin (base_url self) path in
  try_except
    (response <- session_request
                   {| method := method; url := url; json_body := body;
                      params := params; request_timeout := timeout self |} ;;
     _ <- lift (raise_for_status response) ;;
     data <- lift (json response) ;;
     ok <- lift (py_get data "ok" (VBool false)) ;;
     if negb (truthy ok) then
       message <- lift (py_get data "message" VNone) ;;
       error <- lift (py_get data "error" VNone) ;;
       let error_msg :=
         py_or message (py_or error (VStr "API request failed")) in
       raise (ValueError ("LauraDB API error: " +:+ format_value error_msg))
     else ret data)
    (fun e =>
       match e with
       | RequestException _ text =>
           raise (RuntimeError ("HTTP request failed: " +:+ text))
       | _ => raise e
       end).

Definition ping `{Library} (self : Client) : M value :=
  try_except
    (response <- _request self "GET" "/ping" None None ;;
     lift (py_get response "ok" (VBool false)))
    (fun _ => ret (VBool false)).

Definition stats `{Library} (self : Client) : M value :=
  response <- _request self "GET" "/stats" None None ;;
  lift (py_get response "result" (VDict [])).

Definition list_collections `{Library} (self : Client) : M value :=
  response <- _request self "GET" "/collections" None None ;;
  result <- lift (py_get response "result" (VDict [])) ;;
  lift (py_get result "collections" (VList [])).

Definition create_collection `{Library} (self : Client) (name : string)
    : M value :=
  response <- _request self "POST" ("/collections/" +:+ name) None None ;;
  lift (py_get response "ok" (VBool false)).

Definition drop_collection `{Library} (self : Client) (name : string)
    : M value :=
  response <- _request self "DELETE" ("/collections/" +:+ name) None None ;;
  lift (py_get response "ok" (VBool false)).

End Client.

(** ** [lauradb/collection.py] *)

Module Collection.

Record Collection : Type := {
  client : Client.Client;
  name : string;
  _base_path : string;
}.

Definition new (client : Client.Client) (name : string) : Collection :=
  {| client := client; name := name; _base_path := "/collections/" +:+ name |}.

(** [response.get("result", {}).get(key, default)] *)
Definition unwrap (response : value) (key : string) (default : value)
    : M value :=
  result <- lift (py_get response "result" (VDict [])) ;;
  lift (py_get result key default).

Definition insert_one `{Library} (self : Collection) (document : value)
    : M value :=
  response <- Client._request (client self) "POST"
                (_base_path self +:+ "/insert")
                (Some (VDict [("document", document)])) None ;;
  unwrap response "id" (VStr "").

Definition insert_many `{Library} (self : Collection) (documents : value)
    : M value :=
  response <- Client._request (client self) "POST"
                (_base_path self +:+ "/insert-many")
                (Some (VDict [("documents", documents)])) None ;;
  unwrap response "ids" (VList []).

(** The body [find] builds.  An argument the caller leaves out has the
    default [None] of the signature. *)
Definition find_body (filter projection sort skip limit : value)
    : dict value :=
  let body := [("filter", py_or filter (VDict []))] in
  let body := if truthy projection
              then dict_set "projection" projection body else body in
  let body := if truthy sort then dict_set "sort" sort body else body in
  let body := if is_not_None skip then dict_set "skip" skip body else body in
  let body := if is_not_None limit then dict_set "limit" limit body else body in
  body.

Definition find `{Library} (self : Collection)
    (filter projection sort skip limit : value) : M value :=
  let body := find_body filter projection sort skip limit in
  response <- Client._request (client self) "POST"
                (_base_path self +:+ "/find") (Some (VDict body)) None ;;
  unwrap response "documents" (VList []).

Definition count `{Library} (self : Collection) (filter : value) : M value :=
  response <- Client._request (client self) "POST"
                (_base_path self +:+ "/count")
                (Some (VDict [("filter", py_or filter (VDict []))])) None ;;
  unwrap response "count" (VInt 0).

Definition update_many `{Library} (self : Collection) (filter update : value)
    : M value :=
  response <- Client._request (client self) "POST"
                (_base_path self +:+ "/update-many")
                (Some (VDict [("filter", filter); ("update", update)])) None ;;
  unwrap response "modified" (VInt 0).

Definition delete_many `{Library} (self : Collection) (filter : value)
    : M value :=
  response <- Client._request (client self) "POST"
                (_base_path self +:+ "/delete-many")
                (Some (VDict [("filter", filter)])) None ;;
  unwrap response "deleted" (VInt 0).

Definition aggregate `{Library} (self : Collection) (pipeline : list value)
    : M value :=
  response <- Client._request (client self) "POST"
                (_base_path self +:+ "/aggregate")
                (Some (VDict [("pipeline", VList pipeline)])) None ;;
  unwrap response "documents" (VList []).

Definition find_one `{Library} (self : Collection) (filter projection : value)
    : M value :=
  let body := [("filter", py_or filter (VDict []))] in
  let body := if truthy projection
              then dict_set "projection" projection body else body in
  response <- Client._request (client self) "POST"
                (_base_path self +:+ "/find-one") (Some (VDict body)) None ;;
  unwrap response "document" VNone.

(** [response.get("result", {}).get(key, 0) > 0] *)
Definition unwrap_positive (response : value) (key : string) : M value :=
  result <- lift (py_get response "result" (VDict [])) ;;
  n <- lift (py_get result key (VInt 0)) ;;
  lift (py_gt_zero n).

Definition update_one `{Library} (self : Collection) (filter update : value)
    : M value :=
  response <- Client._request (client self) "POST"
                (_base_path self +:+ "/update-one")
                (Some (VDict [("filter", filter); ("update", update)])) None ;;
  unwrap_positive response "modified".

Definition delete_one `{Library} (self : Collection) (filter : value)
    : M value :=
  response <- Client._request (client self) "POST"
                (_base_path self +:+ "/delete-one")
                (Some (VDict [("filter", filter)])) None ;;
  unwrap_positive response "deleted".

Definition create_index `{Library} (self : Collection)
    (field unique sparse name : value) : M value :=
  let body := [("field", field); ("unique", unique); ("sparse", sparse)] in
  let body := if truthy name then dict_set "name" name body else body in
  response <- Client._request (client self) "POST"
                (_base_path self +:+ "/indexes") (Some (VDict body)) None ;;
  lift (py_get response "ok" (VBool false)).

Definition create_compound_index `{Library} (self : Collection)
    (fields unique name : value) : M value :=
  let body := [("fields", fields); ("unique", unique)] in
  let body := if truthy name then dict_set "name" name body else body in
  response <- Client._request (client self) "POST"
                (_base_path self +:+ "/indexes/compound")
                (Some (VDict body)) None ;;
  lift (py_get response "ok" (VBool false)).

Definition create_text_index `{Library} (self : Collection)
    (fields name : value) : M value :=
  let body := [("fields", fields)] in
  let body := if truthy name then dict_set "name" name body else body in
  response <- Client._request (client self) "POST"
                (_base_path self +:+ "/indexes/text") (Some (VDict body)) None ;;
  lift (py_get response "ok" (VBool false)).

Definition create_geo_index `{Library} (self : Collection)
    (field geo_type name : value) : M value :=
  let body := [("field", field); ("geoType", geo_type)] in
  let body := if truthy name then dict_set "name" name body else body in
  response <- Client._request (client self) "POST"
                (_base_path self +:+ "/indexes/geo") (Some (VDict body)) None ;;
  lift (py_get response "ok" (VBool false)).

Definition create_ttl_index `{Library} (self : Collection)
    (field expire_after_seconds name : value) : M value :=
  let body := [("field", field); ("expireAfterSeconds", expire_after_seconds)] in
  let body := if truthy name then dict_set "name" name body else body in
  response <- Client._request (client self) "POST"
                (_base_path self +:+ "/indexes/ttl") (Some (VDict body)) None ;;
  lift (py_get response "ok" (VBool false)).

Definition create_partial_index `{Library} (self : Collection)
    (field filter_expr unique name : value) : M value :=
  let body := [("field", field); ("filterExpression", filter_expr);
               ("unique", unique)] in
  let body := if truthy name then dict_set "name" name body else body in
  response <- Client._request (client self) "POST"
                (_base_path self +:+ "/indexes/partial")
                (Some (VDict body)) None ;;
  lift (py_get response "ok" (VBool false)).

Definition list_indexes `{Library} (self : Collection) : M value :=
  response <- Client._request (client self) "GET"
                (_base_path self +:+ "/indexes") None None ;;
  unwrap response "indexes" (VList []).

Definition drop_index `{Library} (self : Collection) (name : string)
    : M value :=
  response <- Client._request (client self) "DELETE"
                (_base_path self +:+ "/indexes/" +:+ name) None None ;;
  lift (py_get response "ok" (VBool false)).

Definition stats `{Library} (self : Collection) : M value :=
  response <- Client._request (client self) "GET"
                (_base_path self +:+ "/stats") None None ;;
  lift (py_get response "result" (VDict [])).

End Collection.

(** ** [lauradb/index.py] *)

Module Index.

Definition BTREE : string := "btree".
Definition COMPOUND : string := "compound".
Definition TEXT : string := "text".
Definition GEO_2D : string := "2d".
Definition GEO_2DSPHERE : string := "2dsphere".
Definition TTL : string := "ttl".
Definition PARTIAL : string := "partial".

Definition create_btree_config (field unique sparse name : value) : dict value :=
  let config := [("field", field); ("unique", unique); ("sparse", sparse)] in
  let config := if truthy name then dict_set "name" name config else config in
  config.

Definition create_compound_config (fields unique name : value) : dict value :=
  let config := [("fields", fields); ("unique", unique)] in
  let config := if truthy name then dict_set "name" name config else config in
  config.

Definition create_text_config (fields name weights : value) : dict value :=
  let config := [("fields", fields)] in
  let config := if truthy name then dict_set "name" name config else config in
  let config := if truthy weights
                then dict_set "weights" weights config else config in
  config.

Definition create_geo_config (field geo_type name : value) : dict value :=
  let config := [("field", field); ("geoType", geo_type)] in
  let config := if truthy name then dict_set "name" name config else config in
  config.

Definition create_ttl_config (field expire_after_seconds name : value)
    : dict value :=
  let config := [("field", field);
                 ("expireAfterSeconds", expire_after_seconds)] in
  let config := if truthy name then dict_set "name" name config else config in
  config.

Definition create_partial_config (field filter_expr unique name : value)
    : dict value :=
  let config := [("field", field); ("filterExpression", filter_expr);
                 ("unique", unique)] in
  let config := if truthy name then dict_set "name" name config else config in
  config.

(** The four blocks of [analyze_query_plan], each giving the lines it
    appends to [lines]. *)
Definition execution_lines `{Library} (explain_result : value)
    : result (list string) :=
  match item_if_in "executionStats" explain_result with
  | Raise e => Raise e
  | Ok None => Ok []
  | Ok (Some stats) =>
      match py_get stats "executionTimeMs" (VInt 0),
            py_get stats "documentsExamined" (VInt 0),
            py_get stats "documentsReturned" (VInt 0) with
      | Ok time, Ok examined, Ok returned =>
          Ok [ "Execution Time: " +:+ format_value time +:+ "ms";
               "Documents Examined: " +:+ format_value examined;
               "Documents Returned: " +:+ format_value returned ]
      | Raise e, _, _ => Raise e
      | _, Raise e, _ => Raise e
      | _, _, Raise e => Raise e
      end
  end.

Definition index_lines `{Library} (explain_result : value)
    : result (list string) :=
  match item_if_in "indexUsed" explain_result with
  | Raise e => Raise e
  | Ok None => Ok []
  | Ok (Some index) =>
      if truthy index then
        match py_get index "name" (VStr "unknown") with
        | Ok name => Ok [ "Index Used: " +:+ format_value name ]
        | Raise e => Raise e
        end
      else
        Ok [ "Index Used: None (Collection scan)";
             "⚠️  Consider adding an index for better performance" ]
  end.

Definition optimized_lines (explain_result : value) : result (list string) :=
  match item_if_in "optimized" explain_result with
  | Raise e => Raise e
  | Ok None => Ok []
  | Ok (Some optimized) =>
      if truthy optimized then Ok [ "✓ Query is optimized" ]
      else Ok [ "⚠️  Query could be optimized" ]
  end.

Definition covered_lines (explain_result : value) : result (list string) :=
  match item_if_in "coveredQuery" explain_result with
  | Raise e => Raise e
  | Ok None => Ok []
  | Ok (Some covered) =>
      if truthy covered then Ok [ "✓ Covered query (index-only)" ] else Ok []
  end.

(** The list [lines] at the [return] of [analyze_query_plan], for an
    [explain_result] that counts as true. *)
Definition report_lines `{Library} (explain_result : value)
    : result (list string) :=
  match execution_lines explain_result with
  | Raise e => Raise e
  | Ok l1 =>
      match index_lines explain_result with
      | Raise e => Raise e
      | Ok l2 =>
          match optimized_lines explain_result with
          | Raise e => Raise e
          | Ok l3 =>
              match covered_lines explain_result with
              | Raise e => Raise e
              | Ok l4 => Ok (l1 ++ l2 ++ l3 ++ l4)
              end
          end
      end
  end.

Definition analyze_query_plan `{Library} (explain_result : value)
    : result string :=
  if negb (truthy explain_result) then Ok "No explain data available"
  else match report_lines explain_result with
       | Ok lines => Ok (join newline lines)
       | Raise e => Raise e
       end.

End Index.

(** ** Vocabulary of the statements, and concrete inputs *)

(** The three outcomes a caller of [_request] tells apart. *)
Definition is_transport_error {A} (r : result A) : bool :=
  match r with Raise (RuntimeError _) => true | _ => false end.

Definition is_api_error {A} (r : result A) : bool :=
  match r with Raise (ValueError _) => true | _ => false end.

(** [key] is present in [d] with a value that counts as true. *)
Definition present_and_true (key : string) (d : dict value) : option value :=
  match dict_get key d with
  | Some v => if truthy v then Some v else None
  | None => None
  end.

(** The message of an API-level error: the body's [message] when it is
    there and not empty, else its [error] likewise, else the fallback. *)
Definition api_message (d : dict value) : value :=
  match present_and_true "message" d, present_and_true "error" d with
  | Some m, _ => m
  | None, Some e => e
  | None, None => VStr "API request failed"
  end.


(** The [ok] flag of a response body, absent counting as false. *)
Definition ok_flag (d : dict value) : bool :=
  match dict_get "ok" d with
  | Some v => truthy v
  | None => false
  end.

(** What becomes of a body that does not decode: the handler of
    [_request] catches the [RequestException] of a [requests] from 2.27
    on, and lets the [ValueError] of an older one through. *)
Definition undecodable `{Library} (text : string) : result value :=
  match json_error_class with
  | DecodeRaisesRequestException =>
      Raise (RuntimeError ("HTTP request failed: " +:+ text))
  | DecodeRaisesValueError => Raise (ValueError text)
  end.

(** The request [_request] hands to the session. *)
Definition request_of `{Library} (self : Client.Client) (method path : string)
    (body params : option value) : request :=
  {| method := method; url := urljoin (Client.base_url self) path;
     json_body := body; params := params;
     request_timeout := Client.timeout self |}.

(** A successful response has a [result] object without [key], or no
    [result] at all. *)
Definition lacks (key : string) (d : dict value) : Prop :=
  dict_get "result" d = None \/
  exists result, dict_get "result" d = Some (VDict result) /\
                 dict_get key result = None.

(** A library for the examples: paths of the client start with a slash and
    are appended to the base; [str] of a non-string is not needed there;
    [requests] is a release from 2.27 on. *)
Definition sample_library : Library :=
  {| urljoin := String.append; str_other := type_name;
     json_error_class := DecodeRaisesRequestException |}.

(** The same with a release of [requests] before 2.27. *)
Definition older_requests_library : Library :=
  {| urljoin := String.append; str_other := type_name;
     json_error_class := DecodeRaisesValueError |}.

Definition sample_client : Client.Client := Client.new "localhost" 8080 false 30.

Definition sample_collection : Collection.Collection :=
  Collection.new sample_client "users".

(** A server that gives the same reply to every request. *)
Definition canned (r : reply) : world := {| wire := []; server := fun _ _ => r |}.

Definition http_response (status : Z) (data : value) : reply :=
  Responds {| status_code := status; reason := ""; response_url := "";
              decoded := inr data |}.

(** A computation that returns, when it returns, only values that count
    as true. *)
Definition returns_only_true (outcome : result value) : Prop :=
  forall v, outcome = Ok v -> truthy v = true.

(** A computation that returns, when it returns, only booleans. *)
Definition returns_only_bool (outcome : result value) : Prop :=
  forall v, outcome = Ok v -> exists b, v = VBool b.

Definition is_dict (v : value) : bool :=
  match v with VDict _ => true | _ => false end.

(** An explain result in which [analyze_query_plan] calls [get] on
    something that is no mapping: its [executionStats], or an [indexUsed]
    that counts as true. *)
Definition get_on_non_dict (d : dict value) : bool :=
  match dict_get "executionStats" d with
  | Some stats => negb (is_dict stats)
  | None => false
  end
  ||
  match dict_get "indexUsed" d with
  | Some index => truthy index && negb (is_dict index)
  | None => false
  end.

(** The advice [analyze_query_plan] gives when no index was used. *)
Definition index_advice : string :=
  "⚠️  Consider adding an index for better performance".

(** A server that turns every request away, without an answer or with
    an answer of the API. *)
Definition refusing : world := canned (Fails ConnectionError "connection refused").

Definition rejecting : world :=
  canned (http_response 200
            (VDict [("ok", VBool false); ("message", VStr "duplicate key")])).

(** A continuation that leaves the world alone. *)
Definition silent {A B} (k : A -> M B) : Prop := forall a w, (k a w).2 = w.

(** A response with a body that decoded, and nothing else of note. *)
Definition plain_response (status : Z) (data : value) : response :=
  {| status_code := status; reason := ""; response_url := "";
     decoded := inr data |}.

(** A line that does not begin like ["No explain data available"]. *)
Definition not_the_apology (line : string) : Prop :=
  exists c rest, line = String c rest /\ c <> "N"%char.

(** * Properties *)

(** ** Dictionaries *)

Section DictFacts.
Context {A : Type}.
Implicit Types (d other : dict A) (k : string) (v : A).

Lemma dict_get_set k k' v d :
  dict_get k (dict_set k' v d) = if String.eqb k' k then Some v else dict_get k d.
Proof.
  induction d as [|[k0 v0] d IH]; simpl.
  - reflexivity.
  - destruct (String.eqb k0 k') eqn:E0; simpl.
    + apply String.eqb_eq in E0; subst k0.
      destruct (String.eqb k' k); reflexivity.
    + destruct (String.eqb k0 k) eqn:E1; [|exact IH].
      apply String.eqb_eq in E1; subst k0.
      rewrite String.eqb_sym, E0. reflexivity.
Qed.

Lemma dict_get_set_same k v d : dict_get k (dict_set k v d) = Some v.
Proof. rewrite dict_get_set, String.eqb_refl. reflexivity. Qed.

Lemma dict_set_absent k v d :
  dict_get k d = None -> dict_set k v d = d ++ [(k, v)].
Proof.
  induction d as [|[k0 v0] d IH]; simpl; [reflexivity|].
  destruct (String.eqb k0 k); [discriminate|].
  intros Hd. rewrite IH by exact Hd. reflexivity.
Qed.

Lemma dict_set_set k v v' d : dict_set k v (dict_set k v' d) = dict_set k v d.
Proof.
  induction d as [|[k0 v0] d IH]; simpl.
  - rewrite String.eqb_refl. reflexivity.
  - destruct (String.eqb k0 k) eqn:E; simpl; rewrite E; [reflexivity|].
    rewrite IH. reflexivity.
Qed.

Lemma keys_dict_set_present k v d :
  dict_contains k d = true -> keys (dict_set k v d) = keys d.
Proof.
  unfold dict_contains, keys.
  induction d as [|[k0 v0] d IH]; simpl; [discriminate|].
  destruct (String.eqb k0 k) eqn:E; simpl; [reflexivity|].
  intros Hd. rewrite IH by exact Hd. reflexivity.
Qed.

Lemma dict_get_None_keys k d : dict_get k d = None <-> k ∉ keys d.
Proof.
  unfold keys. induction d as [|[k0 v0] d IH]; simpl.
  - split; [intros _; apply not_elem_of_nil | reflexivity].
  - rewrite not_elem_of_cons. destruct (String.eqb k0 k) eqn:E.
    + apply String.eqb_eq in E. split; [discriminate | intros [Hne _]; congruence].
    + apply String.eqb_neq in E. rewrite IH. split; [intros ?; split; congruence | tauto].
Qed.

Lemma NoDup_keys_dict_set k v d : NoDup (keys d) -> NoDup (keys (dict_set k v d)).
Proof.
  intros Hd. destruct (dict_get k d) eqn:E.
  - rewrite keys_dict_set_present; [exact Hd|].
    unfold dict_contains. rewrite E. reflexivity.
  - rewrite dict_set_absent by exact E. unfold keys. rewrite map_app. simpl.
    apply NoDup_app. split; [exact Hd|]. split.
    + intros x Hx Hin. apply list_elem_of_singleton in Hin. subst x.
      apply dict_get_None_keys in E. exact (E Hx).
    + apply NoDup_singleton.
Qed.

Lemma dict_update_snoc d other k v :
  dict_update d (other ++ [(k, v)]) = dict_set k v (dict_update d other).
Proof. unfold dict_update. rewrite fold_left_app. reflexivity. Qed.

Lemma NoDup_keys_dict_update d other :
  NoDup (keys d) -> NoDup (keys (dict_update d other)).
Proof.
  intros Hd. induction other as [|[k v] other IH] using rev_ind; [exact Hd|].
  rewrite dict_update_snoc. apply NoDup_keys_dict_set, IH.
Qed.

(** After [d.update(other)] a key has the value of its last entry in
    [other], or the one it had. *)
Lemma dict_get_update k d other :
  dict_get k (dict_update d other) =
  match dict_get k (rev other) with Some v => Some v | None => dict_get k d end.
Proof.
  induction other as [|[k' v'] other IH] using rev_ind; [reflexivity|].
  rewrite dict_update_snoc, dict_get_set, rev_app_distr. simpl.
  destruct (String.eqb k' k); [reflexivity | exact IH].
Qed.

Lemma dict_get_app k d d' :
  dict_get k (d ++ d') =
  match dict_get k d with Some v => Some v | None => dict_get k d' end.
Proof.
  induction d as [|[k0 v0] d IH]; simpl; [reflexivity|].
  destruct (String.eqb k0 k); [reflexivity | exact IH].
Qed.

(** In a dictionary that holds no key twice the first entry of a key is
    also its last. *)
Lemma dict_get_rev k d : NoDup (keys d) -> dict_get k (rev d) = dict_get k d.
Proof.
  unfold keys. induction d as [|[k0 v0] d IH]; simpl; [reflexivity|].
  intros Hd. apply NoDup_cons in Hd as [Hk0 Hd].
  rewrite dict_get_app, IH by exact Hd. simpl.
  destruct (String.eqb k0 k) eqn:E.
  - apply String.eqb_eq in E; subst k0.
    apply dict_get_None_keys in Hk0. rewrite Hk0. reflexivity.
  - destruct (dict_get k d); reflexivity.
Qed.

End DictFacts.

(** ** Aggregation stages and accumulators *)

(** C5: [Aggregation.count()] is the empty-object accumulator
    [{"$count": {}}], neither the literal 1 nor [{"$sum": 1}], and
    [Aggregation.group("$city", {"n": Aggregation.count()})] is
    [{"$group": {"_id": "$city", "n": {"$count": {}}}}], its [_id] being
    the string ["$city"]. *)
Theorem count_is_empty_object_accumulator :
  Aggregation.count = VDict [("$count", VDict [])] /\
  Aggregation.count <> VInt 1 /\
  Aggregation.count <> Aggregation.sum (VInt 1) /\
  Aggregation.group (VStr "$city") (dict_of [("n", Aggregation.count)]) =
    VDict [("$group", VDict [("_id", VStr "$city");
                             ("n", VDict [("$count", VDict [])])])] /\
  (forall stage,
     Aggregation.group (VStr "$city") (dict_of [("n", Aggregation.count)]) =
       VDict [("$group", VDict stage)] ->
     dict_get "_id" stage = Some (VStr "$city") /\
     dict_get "n" stage = Some (VDict [("$count", VDict [])])).
Proof.
  split; [reflexivity|].
  split; [discriminate|].
  split; [discriminate|].
  split; [reflexivity|].
  intros stage Hstage. vm_compute in Hstage.
  injection Hstage as <-. split; reflexivity.
Qed.

(** C10: when the accumulator mapping has a key [_id] of its own, the
    stage [group] builds carries that entry under [_id] and not the
    [group_by] argument: the stage has exactly the entries of the
    accumulator mapping, whatever the group key was. *)
Theorem group_id_overwritten_by_accumulator
    (group_by : value) (accumulators : dict value) (v : value) :
  NoDup (keys accumulators) ->
  dict_get "_id" accumulators = Some v ->
  exists stage,
    Aggregation.group group_by accumulators = VDict [("$group", VDict stage)] /\
    dict_get "_id" stage = Some v /\
    (v <> group_by -> dict_get "_id" stage <> Some group_by) /\
    (forall k, dict_get k stage = dict_get k accumulators).
Proof.
  intros Hnodup Hid.
  assert (Hget : forall k,
    dict_get k (dict_update [("_id", group_by)] accumulators) =
    dict_get k accumulators).
  { intros k. rewrite dict_get_update, dict_get_rev by exact Hnodup.
    destruct (dict_get k accumulators) eqn:Ek; [reflexivity|].
    cbn [dict_get].
    destruct (String.eqb "_id" k) eqn:E; [|reflexivity].
    apply String.eqb_eq in E. subst k. congruence. }
  exists (dict_update [("_id", group_by)] accumulators).
  split; [reflexivity|].
  split; [rewrite Hget; exact Hid|].
  split; [rewrite Hget, Hid; congruence|].
  apply Hget.
Qed.

Lemma group_id_overwritten_witness :
  exists stage,
    Aggregation.group (VStr "$city")
      [("_id", VStr "$country"); ("n", Aggregation.count)] =
      VDict [("$group", VDict stage)] /\
    dict_get "_id" stage = Some (VStr "$country") /\
    (VStr "$country" <> VStr "$city" ->
     dict_get "_id" stage <> Some (VStr "$city")) /\
    (forall k, dict_get k stage =
               dict_get k [("_id", VStr "$country"); ("n", Aggregation.count)]).
Proof.
  apply (group_id_overwritten_by_accumulator (VStr "$city")
           [("_id", VStr "$country"); ("n", Aggregation.count)]
           (VStr "$country")).
  - refine (bool_decide_unpack _ _). vm_compute. exact I.
  - reflexivity.
Defined.

(** ** Query constructors *)

(** C4, as the code has it: a call of [Query.not_] with a number of
    operands other than one fails at the call, with the interpreter's
    [TypeError] (neither the transport-level [RuntimeError] nor the
    API-level [ValueError]) and before any request; beyond that shape
    nothing is validated: [not_] wraps any operand, and [size], [in_],
    [nin] and [all_] embed the operand they are given unchanged, whatever
    its type. *)
Theorem constructors_check_arity_only :
  (forall args, List.length args <> 1%nat ->
     exists text, Query.call_not_ args = Raise (TypeError text)) /\
  (forall condition,
     Query.call_not_ [condition] = Ok (VDict [("$not", condition)])) /\
  (forall field operand,
     Query.call_size field [operand] =
       Ok (VDict [(field, VDict [("$size", operand)])]) /\
     Query.call_in_ field [operand] =
       Ok (VDict [(field, VDict [("$in", operand)])]) /\
     Query.call_nin field [operand] =
       Ok (VDict [(field, VDict [("$nin", operand)])]) /\
     Query.call_all_ field [operand] =
       Ok (VDict [(field, VDict [("$all", operand)])])).
Proof.
  split; [|split].
  - intros args Hlen. unfold Query.call_not_, arity_error.
    destruct args as [|a [|b args]]; simpl in *.
    + eexists. reflexivity.
    + congruence.
    + eexists. reflexivity.
  - reflexivity.
  - intros field operand. repeat split.
Qed.

(** C4 as stated fails: a string given to [size] as the array length, and
    an integer given to [in_] as the list of candidates, are accepted. *)
Lemma size_accepts_non_integer :
  Query.call_size "tags" [VStr "three"] =
    Ok (VDict [("tags", VDict [("$size", VStr "three")])]) /\
  Query.call_in_ "age" [VInt 5] =
    Ok (VDict [("age", VDict [("$in", VInt 5)])]).
Proof. split; reflexivity. Qed.

(** ** [UpdateBuilder.combine] *)

Section CombineFacts.
Context {A : Type}.
Implicit Types (result : UpdateBuilder.update_doc A) (fields : dict A).

Import UpdateBuilder.

Lemma combine_entry_merge result operator fields :
  combine_entry result (operator, fields) = merge_operator result operator fields.
Proof.
  unfold combine_entry, merge_operator, dict_contains, get_default.
  unfold update_doc, dict in *.
  destruct (dict_get operator result) as [present|] eqn:E; simpl.
  - rewrite ?E. reflexivity.
  - rewrite dict_get_set_same, dict_set_set. reflexivity.
Qed.

Lemma fold_combine_entry entries : forall result,
  fold_left combine_entry entries result = merge_all result entries.
Proof.
  induction entries as [|[operator fields] entries IH]; intros result;
    cbn [fold_left merge_all].
  - reflexivity.
  - rewrite combine_entry_merge. apply IH.
Qed.

Lemma fold_combine_update (updates : list (update_doc A)) : forall result,
  fold_left combine_update updates result =
  fold_left combine_entry (concat updates) result.
Proof.
  induction updates as [|u updates IH]; intros result; simpl.
  - reflexivity.
  - rewrite fold_left_app. apply IH.
Qed.

Lemma combine_refines_spec (updates : list (update_doc A)) :
  combine updates = combine_spec updates.
Proof.
  unfold combine, combine_spec.
  rewrite fold_combine_update. apply fold_combine_entry.
Qed.

Lemma combine_snoc (updates : list (update_doc A)) (u : update_doc A) :
  combine (updates ++ [u]) = combine_update (combine updates) u.
Proof. unfold combine. rewrite fold_left_app. reflexivity. Qed.

Lemma combine_update_snoc result (u : update_doc A) entry :
  combine_update result (u ++ [entry]) = combine_entry (combine_update result u) entry.
Proof. unfold combine_update. rewrite fold_left_app. reflexivity. Qed.

(** *** The last binding wins *)

Lemma last_binding_snoc operator field (bs : list (string * string * A)) b :
  last_binding operator field (bs ++ [b]) =
  if String.eqb b.1.1 operator && String.eqb b.1.2 field
  then Some b.2 else last_binding operator field bs.
Proof. unfold last_binding. rewrite fold_left_app. reflexivity. Qed.

Lemma last_binding_app operator field (bs bs' : list (string * string * A)) :
  last_binding operator field (bs ++ bs') =
  match last_binding operator field bs' with
  | Some v => Some v
  | None => last_binding operator field bs
  end.
Proof.
  induction bs' as [|b bs' IH] using rev_ind.
  - rewrite app_nil_r. reflexivity.
  - rewrite app_assoc, !last_binding_snoc, IH.
    destruct (String.eqb b.1.1 operator && String.eqb b.1.2 field); reflexivity.
Qed.

Lemma last_binding_entry operator field operator' fields :
  last_binding operator field (entry_bindings (operator', fields)) =
  if String.eqb operator' operator then dict_get field (rev fields) else None.
Proof.
  unfold entry_bindings. simpl.
  induction fields as [|[k v] fields IH] using rev_ind.
  - simpl. destruct (String.eqb operator' operator); reflexivity.
  - rewrite map_app, rev_app_distr. simpl map. rewrite last_binding_snoc, IH.
    cbn [fst snd rev app dict_get].
    destruct (String.eqb operator' operator); simpl; [|reflexivity].
    destruct (String.eqb k field); reflexivity.
Qed.

Lemma lookup2_combine_entry operator field result entry :
  lookup2 operator field (combine_entry result entry) =
  match last_binding operator field (entry_bindings entry) with
  | Some v => Some v
  | None => lookup2 operator field result
  end.
Proof.
  destruct entry as [operator' fields].
  rewrite combine_entry_merge, last_binding_entry.
  unfold lookup2, merge_operator. rewrite dict_get_set.
  destruct (String.eqb operator' operator) eqn:E.
  - apply String.eqb_eq in E. subst operator'.
    change (fold_left _ fields ?c) with (dict_update c fields).
    rewrite dict_get_update.
    destruct (dict_get field (rev fields)); [reflexivity|].
    destruct (dict_get operator result); reflexivity.
  - destruct (dict_get operator result); reflexivity.
Qed.

Lemma lookup2_combine_update operator field (u : update_doc A) : forall result,
  lookup2 operator field (combine_update result u) =
  match last_binding operator field (flat_map entry_bindings u) with
  | Some v => Some v
  | None => lookup2 operator field result
  end.
Proof.
  induction u as [|entry u IH] using rev_ind; intros result.
  - reflexivity.
  - rewrite combine_update_snoc, lookup2_combine_entry, IH.
    rewrite flat_map_app, last_binding_app. simpl. rewrite app_nil_r.
    destruct (last_binding operator field (entry_bindings entry)); reflexivity.
Qed.

Lemma bindings_snoc (updates : list (update_doc A)) u :
  bindings (updates ++ [u]) = bindings updates ++ flat_map entry_bindings u.
Proof.
  unfold bindings. rewrite flat_map_app. simpl. rewrite app_nil_r. reflexivity.
Qed.

Lemma lookup2_combine operator field (updates : list (update_doc A)) :
  lookup2 operator field (combine updates) =
  last_binding operator field (bindings updates).
Proof.
  induction updates as [|u updates IH] using rev_ind.
  - reflexivity.
  - rewrite combine_snoc, lookup2_combine_update, bindings_snoc, last_binding_app, IH.
    reflexivity.
Qed.

(** *** Operators accumulate *)

Lemma contains_combine_entry operator result entry :
  dict_contains operator (combine_entry result entry) =
  String.eqb entry.1 operator || dict_contains operator result.
Proof.
  destruct entry as [operator' fields].
  rewrite combine_entry_merge. unfold merge_operator, dict_contains.
  rewrite dict_get_set. simpl.
  destruct (String.eqb operator' operator); reflexivity.
Qed.

Lemma contains_combine_update operator (u : update_doc A) : forall result,
  dict_contains operator (combine_update result u) =
  dict_contains operator u || dict_contains operator result.
Proof.
  induction u as [|entry u IH] using rev_ind; intros result.
  - reflexivity.
  - rewrite combine_update_snoc, contains_combine_entry, IH.
    unfold dict_contains at 3. rewrite dict_get_app.
    fold (dict_contains operator u).
    destruct entry as [operator' fields]. cbn [dict_get fst].
    unfold dict_contains.
    destruct (dict_get operator u), (String.eqb operator' operator),
      (dict_get operator result); reflexivity.
Qed.

Lemma contains_combine operator (updates : list (update_doc A)) :
  dict_contains operator (combine updates) =
  existsb (dict_contains operator) updates.
Proof.
  induction updates as [|u updates IH] using rev_ind.
  - reflexivity.
  - rewrite combine_snoc, contains_combine_update, IH, existsb_app. simpl.
    rewrite orb_false_r. apply orb_comm.
Qed.

(** *** The result is a dictionary of dictionaries *)

Lemma Forall_dict_set (P : string * dict A -> Prop) k fields result :
  (forall k', P (k', fields)) -> Forall P result -> Forall P (dict_set k fields result).
Proof.
  intros HP. induction 1 as [|[k0 v0] result H0 Hr IH]; simpl.
  - constructor; [apply HP | constructor].
  - destruct (String.eqb k0 k); constructor; auto.
Qed.

Lemma Forall_dict_get (P : string * dict A -> Prop) k fields result :
  Forall P result -> dict_get k result = Some fields -> exists k', P (k', fields).
Proof.
  induction 1 as [|[k0 v0] result H0 Hr IH]; simpl; [discriminate|].
  destruct (String.eqb k0 k); [|exact IH].
  intros [= <-]. exists k0. exact H0.
Qed.

Lemma well_formed_combine_entry result entry :
  well_formed result -> well_formed (combine_entry result entry).
Proof.
  destruct entry as [operator fields]. intros [Hk Hv].
  rewrite combine_entry_merge. unfold merge_operator. split.
  - apply NoDup_keys_dict_set, Hk.
  - apply Forall_dict_set; [|exact Hv]. intros k0. simpl.
    change (fold_left _ fields ?c) with (dict_update c fields).
    apply NoDup_keys_dict_update.
    destruct (dict_get operator result) as [present|] eqn:E; [|constructor].
    destruct (Forall_dict_get _ _ _ _ Hv E) as [k' Hp]. exact Hp.
Qed.

Lemma well_formed_fold entries : forall result,
  well_formed result -> well_formed (fold_left combine_entry entries result).
Proof.
  induction entries as [|entry entries IH]; intros result Hr; cbn [fold_left].
  - exact Hr.
  - apply IH, well_formed_combine_entry, Hr.
Qed.

Lemma well_formed_combine (updates : list (update_doc A)) :
  well_formed (combine updates).
Proof.
  unfold combine. rewrite fold_combine_update.
  apply well_formed_fold. split; constructor.
Qed.

End CombineFacts.

(** C2: [combine(u1, ..., un)] is the mapping obtained from the empty one
    by merging, for each input in order and each of its operators, the
    operator's field mapping into the result's mapping for that operator.
    Operators of different inputs accumulate: an operator is in the result
    exactly when some input has it.  Within an operator the later value
    of a field wins: the result holds for a field the value of its last
    binding.  The result holds no key twice.  In particular
    [combine(set(a,1), set(b,2)) == {"$set": {a: 1, b: 2}}],
    [combine(set(a,1), inc(b,2)) == {"$set": {a: 1}, "$inc": {b: 2}}], and
    two [set] of one field keep the later value. *)
Theorem combine_merges_updates (updates : list (UpdateBuilder.update_doc value)) :
  UpdateBuilder.combine updates = UpdateBuilder.combine_spec updates /\
  (forall operator,
     dict_contains operator (UpdateBuilder.combine updates) =
     existsb (dict_contains operator) updates) /\
  (forall operator field,
     UpdateBuilder.lookup2 operator field (UpdateBuilder.combine updates) =
     UpdateBuilder.last_binding operator field (UpdateBuilder.bindings updates)) /\
  UpdateBuilder.well_formed (UpdateBuilder.combine updates) /\
  (forall a b,
     UpdateBuilder.combine
       [UpdateBuilder.set a (VInt 1); UpdateBuilder.set b (VInt 2)] =
     dict_of [("$set", dict_of [(a, VInt 1); (b, VInt 2)])]) /\
  (forall a b,
     UpdateBuilder.combine
       [UpdateBuilder.set a (VInt 1); UpdateBuilder.inc b (VInt 2)] =
     dict_of [("$set", dict_of [(a, VInt 1)]); ("$inc", dict_of [(b, VInt 2)])]) /\
  (forall a first second,
     UpdateBuilder.combine
       [UpdateBuilder.set a first; UpdateBuilder.set a second] =
     dict_of [("$set", dict_of [(a, second)])]).
Proof.
  split; [apply combine_refines_spec|].
  split; [intros; apply contains_combine|].
  split; [intros; apply lookup2_combine|].
  split; [apply well_formed_combine|].
  split; [|split].
  - intros a b. reflexivity.
  - intros a b. reflexivity.
  - intros a first second.
    cbv. rewrite String.eqb_refl. reflexivity.
Qed.

(** ** [combine] on the store *)

Section StoreFacts.
Import Store.
Implicit Types (h hc : heap) (acc : UpdateBuilder.update_doc ref).

Lemma lookup_built h o (subs : list object) :
  (h ++ o :: subs) !! List.length h = Some o.
Proof. apply list_lookup_middle. reflexivity. Qed.

Lemma lookup_sub h o (subs : list object) i :
  (h ++ o :: subs) !! S (List.length h + i) = subs !! i.
Proof.
  rewrite lookup_app_r by lia.
  replace (S (List.length h + i) - List.length h)%nat with (S i) by lia.
  reflexivity.
Qed.

Lemma insert_built h o o' (subs : list object) :
  <[List.length h := o']> (h ++ o :: subs) = h ++ o' :: subs.
Proof.
  rewrite insert_app_r_alt by lia.
  replace (List.length h - List.length h)%nat with 0%nat by lia. reflexivity.
Qed.

Lemma insert_sub h o o' (subs : list object) i :
  <[S (List.length h + i) := o']> (h ++ o :: subs) = h ++ o :: <[i := o']> subs.
Proof.
  rewrite insert_app_r_alt by lia.
  replace (S (List.length h + i) - List.length h)%nat with (S i) by lia.
  reflexivity.
Qed.

(** What was in the store stays readable when objects are added. *)
Lemma load_dict_app h extra r d :
  load_dict h r = Some d -> load_dict (h ++ extra) r = Some d.
Proof.
  destruct r as [| | | | |l]; simpl; try discriminate.
  destruct (h !! l) as [o|] eqn:E; [|discriminate].
  rewrite (lookup_app_l_Some _ _ _ _ E). trivial.
Qed.

Lemma read_entries_app h extra entries d :
  read_entries h entries = Some d -> read_entries (h ++ extra) entries = Some d.
Proof.
  revert d. induction entries as [|[operator fields] entries IH]; intros d; simpl.
  - trivial.
  - destruct (load_dict h fields) as [fs|] eqn:Ef; [|discriminate].
    destruct (read_entries h entries) as [rs|] eqn:Er; [|discriminate].
    rewrite (load_dict_app _ extra _ _ Ef), (IH _ eq_refl). trivial.
Qed.

Lemma read_update_app h extra r d :
  read_update h r = Some d -> read_update (h ++ extra) r = Some d.
Proof.
  unfold read_update. destruct (load_dict h r) as [entries|] eqn:E; [|discriminate].
  rewrite (load_dict_app _ extra _ _ E). apply read_entries_app.
Qed.

(** *** The layout *)

Lemma layout_length base acc entries subs :
  layout base acc entries subs -> List.length subs = List.length acc.
Proof. induction 1; simpl; congruence. Qed.

Lemma layout_absent base acc entries subs k :
  layout base acc entries subs -> dict_get k acc = None -> dict_get k entries = None.
Proof.
  induction 1 as [|base operator fields acc entries subs _ IH]; simpl; [trivial|].
  destruct (String.eqb operator k); [discriminate | exact IH].
Qed.

Lemma layout_snoc base acc entries subs k fields :
  layout base acc entries subs ->
  layout base (acc ++ [(k, fields)])
         (entries ++ [(k, RObj (base + List.length acc))])
         (subs ++ [ODict fields]).
Proof.
  induction 1 as [base|base operator fs acc entries subs _ IH]; simpl.
  - rewrite Nat.add_0_r. apply layout_cons, layout_nil.
  - apply layout_cons.
    replace (base + S (List.length acc))%nat with (S base + List.length acc)%nat by lia.
    exact IH.
Qed.

Lemma layout_present base acc entries subs k present :
  layout base acc entries subs ->
  dict_get k acc = Some present ->
  exists i,
    dict_get k entries = Some (RObj (base + i)) /\
    subs !! i = Some (ODict present) /\
    forall fields,
      layout base (dict_set k fields acc) entries (<[i := ODict fields]> subs).
Proof.
  induction 1 as [|base operator fs acc entries subs Hl IH]; simpl; [discriminate|].
  destruct (String.eqb operator k) eqn:E.
  - intros [= <-]. exists 0%nat. rewrite Nat.add_0_r.
    repeat split. intros fields. simpl. apply layout_cons, Hl.
  - intros Hk. destruct (IH Hk) as (i & Hget & Hsub & Hset).
    exists (S i). replace (base + S i)%nat with (S base + i)%nat by lia.
    repeat split; [exact Hget | exact Hsub |].
    intros fields. simpl. apply layout_cons, Hset.
Qed.

(** The references the result holds point past [base]. *)
Lemma layout_fresh base acc entries subs :
  layout base acc entries subs ->
  Forall (fun entry => exists l, entry.2 = RObj l /\ (base <= l)%nat) entries.
Proof.
  induction 1 as [|base operator fs acc entries subs _ IH]; constructor.
  - exists base. split; [reflexivity | lia].
  - eapply Forall_impl; [exact IH|].
    intros entry (l & -> & Hl). exists l. split; [reflexivity | lia].
Qed.

Lemma layout_read base acc entries subs hc :
  layout base acc entries subs ->
  (forall i o, subs !! i = Some o -> hc !! (base + i)%nat = Some o) ->
  read_entries hc entries = Some acc.
Proof.
  induction 1 as [|base operator fs acc entries subs _ IH]; intros Hsubs;
    cbn [read_entries load_dict].
  - reflexivity.
  - assert (H0 : hc !! base = Some (ODict fs)).
    { rewrite <- (Nat.add_0_r base). apply Hsubs. reflexivity. }
    rewrite H0, IH; [reflexivity|].
    intros i o Hi. replace (S base + i)%nat with (base + S i)%nat by lia.
    apply Hsubs. exact Hi.
Qed.

(** *** One turn of the inner loop *)

Lemma combine_entry_building h acc hc operator fields added :
  building h acc hc ->
  load_dict h fields = Some added ->
  exists hc',
    Store.combine_entry (List.length h) hc (operator, fields) = Some hc' /\
    building h (UpdateBuilder.combine_entry acc (operator, added)) hc'.
Proof.
  intros (entries & subs & -> & Hl) Hfields.
  rewrite combine_entry_merge. unfold UpdateBuilder.merge_operator.
  change (fold_left _ added ?c) with (dict_update c added).
  unfold Store.combine_entry, load_dict at 1. rewrite lookup_built.
  unfold dict_contains.
  destruct (dict_get operator acc) as [present|] eqn:Eacc.
  - destruct (layout_present _ _ _ _ _ _ Hl Eacc) as (i & Hget & Hsub & Hset).
    cbn [Nat.add] in Hget. rewrite Hget. cbn [negb].
    unfold load_dict at 1. rewrite lookup_built, Hget.
    unfold load_dict at 1. rewrite (lookup_sub h (ODict entries) subs i), Hsub.
    rewrite (load_dict_app _ _ _ _ Hfields).
    eexists. split; [reflexivity|].
    unfold store_dict. rewrite (insert_sub h (ODict entries) _ subs i).
    eexists _, _. split; [reflexivity | apply Hset].
  - pose proof (layout_absent _ _ _ _ _ Hl Eacc) as Habsent.
    rewrite Habsent. cbn [negb alloc].
    rewrite length_app. cbn [List.length]. rewrite Nat.add_succ_r.
    set (fresh := S (List.length h + List.length subs)).
    set (entries' := dict_set operator (RObj fresh) entries).
    assert (Hstore :
      store_dict (List.length h) entries' ((h ++ ODict entries :: subs) ++ [ODict []])
      = h ++ ODict entries' :: (subs ++ [ODict []])).
    { unfold store_dict. rewrite <- app_assoc. cbn [app].
      apply (insert_built h (ODict entries) (ODict entries')). }
    rewrite Hstore.
    unfold load_dict at 1. rewrite (lookup_built h (ODict entries')).
    unfold entries' at 1. rewrite dict_get_set_same.
    unfold load_dict at 1. unfold fresh at 1.
    rewrite (lookup_sub h (ODict entries') (subs ++ [ODict []]) (List.length subs)).
    rewrite lookup_app_r by lia. rewrite Nat.sub_diag. cbn [lookup list_lookup].
    rewrite (load_dict_app _ _ _ _ Hfields).
    eexists. split; [reflexivity|].
    unfold store_dict, fresh at 1.
    rewrite (insert_sub h (ODict entries') _ (subs ++ [ODict []]) (List.length subs)).
    rewrite insert_app_r_alt by lia. rewrite Nat.sub_diag. cbn [insert list_insert].
    eexists _, _. split; [reflexivity|].
    rewrite (dict_set_absent _ _ _ Eacc).
    unfold entries'. rewrite (dict_set_absent _ _ _ Habsent).
    unfold fresh. rewrite (layout_length _ _ _ _ Hl).
    change (S (List.length h + List.length acc))
      with (S (List.length h) + List.length acc)%nat.
    apply layout_snoc, Hl.
Qed.

(** *** The loops *)

Lemma building_extends h acc hc :
  building h acc hc -> exists extra, hc = h ++ extra.
Proof. intros (entries & subs & -> & _). eexists. reflexivity. Qed.

Lemma for_each_entry_building h : forall entries read acc hc,
  read_entries h entries = Some read ->
  building h acc hc ->
  exists hc',
    for_each (Store.combine_entry (List.length h)) entries hc = Some hc' /\
    building h (fold_left UpdateBuilder.combine_entry read acc) hc'.
Proof.
  induction entries as [|[operator fields] entries IH]; intros read acc hc Hread Hb;
    cbn [read_entries for_each] in *.
  - injection Hread as <-. exists hc. split; [reflexivity | exact Hb].
  - destruct (load_dict h fields) as [added|] eqn:Ef; [|discriminate].
    destruct (read_entries h entries) as [rest|] eqn:Er; [|discriminate].
    injection Hread as <-.
    destruct (combine_entry_building _ _ _ operator _ _ Hb Ef) as (hc1 & -> & Hb1).
    destruct (IH _ _ _ eq_refl Hb1) as (hc2 & -> & Hb2).
    exists hc2. split; [reflexivity | exact Hb2].
Qed.

Lemma combine_update_building h acc hc update doc :
  read_update h update = Some doc ->
  building h acc hc ->
  exists hc',
    Store.combine_update (List.length h) hc update = Some hc' /\
    building h (UpdateBuilder.combine_update acc doc) hc'.
Proof.
  unfold read_update, Store.combine_update. intros Hread Hb.
  destruct (load_dict h update) as [entries|] eqn:E; [|discriminate].
  destruct (building_extends _ _ _ Hb) as [extra Hext].
  assert (Hload : load_dict hc update = Some entries).
  { rewrite Hext. apply load_dict_app, E. }
  rewrite Hload.
  apply (for_each_entry_building _ _ _ _ _ Hread Hb).
Qed.

Lemma for_each_update_building h : forall updates docs acc hc,
  Forall2 (fun u d => read_update h u = Some d) updates docs ->
  building h acc hc ->
  exists hc',
    for_each (Store.combine_update (List.length h)) updates hc = Some hc' /\
    building h (fold_left UpdateBuilder.combine_update docs acc) hc'.
Proof.
  intros updates docs acc hc Hall. revert acc hc.
  induction Hall as [|u d updates docs Hu _ IH]; intros acc hc Hb;
    cbn [for_each fold_left].
  - exists hc. split; [reflexivity | exact Hb].
  - destruct (combine_update_building _ _ _ _ _ Hu Hb) as (hc1 & -> & Hb1).
    apply IH, Hb1.
Qed.

(** [combine] on the store: it returns, the result is a new object that
    reads as the [combine] of what the arguments read as, and the store
    it started from is a prefix of the store it leaves. *)
Lemma combine_on_store h updates docs :
  Forall2 (fun u d => read_update h u = Some d) updates docs ->
  exists extra entries,
    Store.combine updates h = Some (RObj (List.length h), h ++ extra) /\
    load_dict (h ++ extra) (RObj (List.length h)) = Some entries /\
    Forall (fun entry => exists l, entry.2 = RObj l /\ (List.length h < l)%nat) entries /\
    read_update (h ++ extra) (RObj (List.length h)) =
      Some (UpdateBuilder.combine docs).
Proof.
  intros Hall. unfold Store.combine. cbn [alloc].
  assert (Hb0 : building h [] (h ++ [ODict []])).
  { exists [], []. split; [reflexivity | constructor]. }
  destruct (for_each_update_building _ _ _ _ _ Hall Hb0)
    as (hc & -> & entries & subs & -> & Hl).
  exists (ODict entries :: subs), entries.
  split; [reflexivity|].
  assert (Hload : load_dict (h ++ ODict entries :: subs) (RObj (List.length h))
                  = Some entries).
  { unfold load_dict. rewrite (lookup_built h (ODict entries)). reflexivity. }
  split; [exact Hload|].
  split.
  - eapply Forall_impl; [exact (layout_fresh _ _ _ _ Hl)|].
    intros entry (l & Hentry & Hle). exists l. split; [exact Hentry | lia].
  - unfold read_update. rewrite Hload.
    apply (layout_read _ _ _ _ _ Hl).
    intros i o Hi. cbn [Nat.add].
    rewrite (lookup_sub h (ODict entries) subs i). exact Hi.
Qed.

End StoreFacts.

(** C8: [combine] is pure with respect to its inputs.  On a store whose
    arguments are update documents the call returns; its result is a new
    dictionary whose field dictionaries are new as well; every object the
    store held before is unchanged, so every input still reads as it did;
    and the result reads as the [combine] of the inputs' readings, a
    function of them alone, so that a second call on the same inputs gives
    an equal result in another new dictionary. *)
Theorem combine_pure (h : list Store.object) (updates : list Store.ref)
    (docs : list (UpdateBuilder.update_doc Store.ref)) :
  Forall2 (fun u d => Store.read_update h u = Some d) updates docs ->
  exists extra entries,
    let h' := h ++ extra in
    let result := Store.RObj (List.length h) in
    Store.combine updates h = Some (result, h') /\
    h !! List.length h = None /\
    Store.load_dict h' result = Some entries /\
    Forall (fun entry => exists l, entry.2 = Store.RObj l /\ h !! l = None) entries /\
    (forall l o, h !! l = Some o -> h' !! l = Some o) /\
    Forall2 (fun u d => Store.read_update h' u = Some d) updates docs /\
    Store.read_update h' result = Some (UpdateBuilder.combine docs) /\
    exists extra',
      let h'' := h' ++ extra' in
      let result' := Store.RObj (List.length h') in
      Store.combine updates h' = Some (result', h'') /\
      result' <> result /\
      Store.read_update h'' result' = Some (UpdateBuilder.combine docs) /\
      Store.read_update h'' result = Some (UpdateBuilder.combine docs).
Proof.
  intros Hall.
  destruct (combine_on_store h updates docs Hall)
    as (extra & entries & Hrun & Hload & Hfresh & Hread).
  exists extra, entries. cbn zeta.
  assert (Hall' : Forall2 (fun u d => Store.read_update (h ++ extra) u = Some d)
                    updates docs).
  { eapply Forall2_impl; [exact Hall|].
    intros u d Hu. apply read_update_app, Hu. }
  split; [exact Hrun|].
  split; [apply lookup_ge_None_2; lia|].
  split; [exact Hload|].
  split.
  { eapply Forall_impl; [exact Hfresh|].
    intros entry (l & Hentry & Hlt). exists l. split; [exact Hentry|].
    apply lookup_ge_None_2. lia. }
  split; [intros l o Hl; apply lookup_app_l_Some, Hl|].
  split; [exact Hall'|].
  split; [exact Hread|].
  destruct (combine_on_store (h ++ extra) updates docs Hall')
    as (extra' & entries' & Hrun' & _ & _ & Hread').
  exists extra'.
  split; [exact Hrun'|].
  split.
  { intros [= Heq]. rewrite length_app in Heq.
    destruct extra as [|o extra]; [|simpl in Heq; lia].
    rewrite app_nil_r in Hload. unfold Store.load_dict in Hload.
    rewrite lookup_ge_None_2 in Hload by lia. discriminate. }
  split; [exact Hread'|].
  apply read_update_app, Hread.
Qed.

Lemma combine_pure_witness :
  exists extra entries,
    let h' := Store.sample_heap ++ extra in
    let result := Store.RObj (List.length Store.sample_heap) in
    Store.combine Store.sample_updates Store.sample_heap = Some (result, h') /\
    Store.sample_heap !! List.length Store.sample_heap = None /\
    Store.load_dict h' result = Some entries /\
    Forall (fun entry => exists l, entry.2 = Store.RObj l /\
                                   Store.sample_heap !! l = None) entries /\
    (forall l o, Store.sample_heap !! l = Some o -> h' !! l = Some o) /\
    Forall2 (fun u d => Store.read_update h' u = Some d) Store.sample_updates
      [ [("$set", [("a", Store.RInt 1)])];
        [("$set", [("a", Store.RInt 2)]); ("$inc", [("n", Store.RInt 1)])];
        [("$set", [("a", Store.RInt 1)])] ] /\
    Store.read_update h' result =
      Some [("$set", [("a", Store.RInt 1)]); ("$inc", [("n", Store.RInt 1)])] /\
    exists extra',
      let h'' := h' ++ extra' in
      let result' := Store.RObj (List.length h') in
      Store.combine Store.sample_updates h' = Some (result', h'') /\
      result' <> result /\
      Store.read_update h'' result' =
        Some [("$set", [("a", Store.RInt 1)]); ("$inc", [("n", Store.RInt 1)])] /\
      Store.read_update h'' result =
        Some [("$set", [("a", Store.RInt 1)]); ("$inc", [("n", Store.RInt 1)])].
Proof.
  apply (combine_pure Store.sample_heap Store.sample_updates
           [ [("$set", [("a", Store.RInt 1)])];
             [("$set", [("a", Store.RInt 2)]); ("$inc", [("n", Store.RInt 1)])];
             [("$set", [("a", Store.RInt 1)])] ]).
  repeat constructor.
Defined.

(** ** The request path *)

Section RequestFacts.
Context `{Library}.
Implicit Types (self : Client.Client) (w : world) (d : dict value).

Lemma py_or_messages d :
  py_or (get_default "message" VNone d)
        (py_or (get_default "error" VNone d) (VStr "API request failed"))
  = api_message d.
Proof.
  unfold api_message, present_and_true, py_or, get_default.
  destruct (dict_get "message" d) as [m|]; [destruct (truthy m) eqn:Em|]; simpl;
    [reflexivity | |];
    (destruct (dict_get "error" d) as [e|]; [destruct (truthy e) eqn:Ee|]; simpl;
     reflexivity).
Qed.

Lemma ok_flag_get_default d : truthy (get_default "ok" (VBool false) d) = ok_flag d.
Proof. unfold ok_flag, get_default. destruct (dict_get "ok" d); reflexivity. Qed.

(** What [_request] does, by the reply of the server. *)
Lemma request_run self method path body params w :
  Client._request self method path body params w =
  (match server w (wire w) (request_of self method path body params) with
   | Fails _ text => Raise (RuntimeError ("HTTP request failed: " +:+ text))
   | Responds r =>
       match http_error_msg r with
       | Some text => Raise (RuntimeError ("HTTP request failed: " +:+ text))
       | None =>
           match decoded r with
           | inl text => undecodable text
           | inr (VDict d) =>
               if ok_flag d then Ok (VDict d)
               else Raise (ValueError ("LauraDB API error: "
                                       +:+ format_value (api_message d)))
           | inr data =>
               Raise (AttributeError ("'" +:+ type_name data
                                      +:+ "' object has no attribute 'get'"))
           end
       end
   end,
   {| wire := wire w ++ [request_of self method path body params];
      server := server w |}).
Proof.
  unfold Client._request, try_except, bind, session_request, request_of, lift,
    raise, ret, raise_for_status, json, undecodable.
  destruct (server w (wire w) _) as [kind text|r]; [reflexivity|].
  destruct (http_error_msg r) as [msg|]; [reflexivity|].
  destruct (decoded r) as [text|data];
    [destruct json_error_class; reflexivity|].
  destruct data; try reflexivity.
  cbn [py_get]. rewrite ok_flag_get_default.
  destruct (ok_flag entries); cbn [negb]; [reflexivity|].
  rewrite py_or_messages. reflexivity.
Qed.

Lemma undecodable_raises (text : string) :
  exists e, undecodable text = Raise e.
Proof. unfold undecodable. destruct json_error_class; eauto. Qed.

Lemma http_error_msg_status (r : response) :
  (400 <= status_code r < 600)%Z <-> exists text, http_error_msg r = Some text.
Proof.
  unfold http_error_msg.
  destruct (decide (400 <= status_code r < 500)%Z);
    [split; [eauto | lia]|].
  destruct (decide (500 <= status_code r < 600)%Z);
    [split; [eauto | lia]|].
  split; [lia | intros [text Ht]; discriminate].
Qed.

End RequestFacts.

Section ClientFacts.
Context `{Library}.
Implicit Types (self : Client.Client) (w : world) (d : dict value).

Lemma no_http_error (r : response) :
  ~ (400 <= status_code r < 600)%Z <-> http_error_msg r = None.
Proof.
  rewrite http_error_msg_status. split.
  - intros Hno. destruct (http_error_msg r) as [text|]; [|reflexivity].
    exfalso. apply Hno. exists text. reflexivity.
  - intros -> [text Ht]. discriminate.
Qed.



(** With a [requests] before 2.27 the [ValueError] of a body that does
    not decode is not caught by [_request]. *)
Lemma older_requests_lets_decode_error_through :
  (@Client._request older_requests_library sample_client "GET" "/stats"
     None None
     (canned (Responds {| status_code := 200; reason := "";
                          response_url := ""; decoded := inl "no JSON" |}))).1
    = Raise (ValueError "no JSON").
Proof. reflexivity. Qed.

(** C9: [ping] never raises.  It returns [True] exactly when the server
    answers without HTTP error with a JSON object whose [ok] is [true],
    and [False] whenever the request raised, whatever it raised. *)
Theorem ping_swallows_errors self w :
  let rq := request_of self "GET" "/ping" None None in
  exists v,
    (Client.ping self w).1 = Ok v /\
    (v = VBool true <->
       exists r d, server w (wire w) rq = Responds r /\
         ~ (400 <= status_code r < 600)%Z /\
         decoded r = inr (VDict d) /\ dict_get "ok" d = Some (VBool true)) /\
    (forall e, (Client._request self "GET" "/ping" None None w).1 = Raise e ->
               v = VBool false).
Proof.
  intros rq. unfold Client.ping, try_except, bind.
  rewrite request_run. fold rq. cbn [fst].
  assert (Hfail : forall (P : Prop),
    (exists r d, server w (wire w) rq = Responds r /\
       ~ (400 <= status_code r < 600)%Z /\
       decoded r = inr (VDict d) /\ dict_get "ok" d = Some (VBool true)) ->
    (forall r d, server w (wire w) rq = Responds r -> http_error_msg r = None ->
       decoded r = inr (VDict d) -> ok_flag d = true -> P) -> P).
  { intros P (r & d & Hr & Hs & Hd & Hok) HP. apply (HP r d Hr); auto.
    - apply no_http_error, Hs.
    - unfold ok_flag. rewrite Hok. reflexivity. }
  destruct (server w (wire w) rq) as [kind text|r] eqn:Hserver.
  { exists (VBool false). split; [reflexivity|]. split; [split|auto].
    - discriminate.
    - intros Hex. apply (Hfail _ Hex). discriminate. }
  destruct (http_error_msg r) as [msg|] eqn:Hmsg.
  { exists (VBool false). split; [reflexivity|]. split; [split|auto].
    - discriminate.
    - intros Hex. apply (Hfail _ Hex). intros r' d [= <-]. congruence. }
  destruct (decoded r) as [text|data] eqn:Hdec.
  { destruct (undecodable_raises text) as [e ->].
    exists (VBool false). split; [reflexivity|]. split; [split|auto].
    - discriminate.
    - intros Hex. apply (Hfail _ Hex). intros r' d [= <-]. congruence. }
  destruct data as [| | | | | |d];
    try (exists (VBool false); split; [reflexivity|]; split; [split|auto];
         [discriminate | intros Hex; apply (Hfail _ Hex);
                         intros r' d [= <-]; congruence]).
  destruct (ok_flag d) eqn:Hok.
  - exists (get_default "ok" (VBool false) d). split; [reflexivity|].
    split; [|discriminate].
    unfold ok_flag, get_default in *.
    destruct (dict_get "ok" d) as [v|] eqn:Hget; [|discriminate].
    split.
    + intros ->. exists r, d. repeat split; auto. apply no_http_error, Hmsg.
    + intros (r' & d' & [= <-] & _ & Hd & Hv). congruence.
  - exists (VBool false). split; [reflexivity|]. split; [split|auto].
    + discriminate.
    + intros Hex. apply (Hfail _ Hex). intros r' d' [= <-] _ Hd. congruence.
Qed.

End ClientFacts.

(** ** The collection facade *)

Section CollectionFacts.
Context `{Library}.
Implicit Types (self : Collection.Collection) (w : world) (d : dict value).

Lemma unwrap_world (response : value) key default w :
  (Collection.unwrap response key default w).2 = w.
Proof.
  unfold Collection.unwrap, bind, lift.
  destruct (py_get response "result" (VDict [])); reflexivity.
Qed.

Lemma request_world (client : Client.Client) method path body params w :
  (Client._request client method path body params w).2 =
  {| wire := wire w ++ [request_of client method path body params];
     server := server w |}.
Proof. rewrite request_run. reflexivity. Qed.

(** A facade operation issues the one request it builds, whatever comes
    back. *)
Lemma facade_wire (client : Client.Client) method path body key default w :
  wire ((response <- Client._request client method path body None ;;
         Collection.unwrap response key default) w).2
  = wire w ++ [request_of client method path body None].
Proof.
  unfold bind.
  pose proof (request_world client method path body None w) as Hw.
  destruct (Client._request client method path body None w) as [[data|e] w'];
    cbn [snd] in Hw; subst w'; [rewrite unwrap_world|]; reflexivity.
Qed.

Lemma find_body_get_filter filter projection sort skip limit k :
  k <> "filter" ->
  dict_get k (Collection.find_body filter projection sort skip limit) =
  if String.eqb "limit" k then if is_not_None limit then Some limit else None
  else if String.eqb "skip" k then if is_not_None skip then Some skip else None
  else if String.eqb "sort" k then if truthy sort then Some sort else None
  else if String.eqb "projection" k
       then if truthy projection then Some projection else None
  else None.
Proof.
  intros Hk. unfold Collection.find_body.
  assert (Hf : String.eqb "filter" k = false) by (apply String.eqb_neq; congruence).
  destruct (String.eqb "limit" k) eqn:El, (String.eqb "skip" k) eqn:Es,
    (String.eqb "sort" k) eqn:Eo, (String.eqb "projection" k) eqn:Ep;
    destruct (truthy projection), (truthy sort), (is_not_None skip),
      (is_not_None limit);
    rewrite ?dict_get_set, ?El, ?Es, ?Eo, ?Ep; cbn [dict_get]; rewrite ?Hf;
    try reflexivity;
    repeat match goal with
    | E : String.eqb _ k = true |- _ => apply String.eqb_eq in E; subst k
    end; discriminate.
Qed.

(** C3, as the code has it: [find] sends [projection] and [sort] exactly
    when the value given for them counts as true (so not when it is an
    empty mapping), and [skip] and [limit] exactly when the value given
    is not [None] (so also when it is 0); a key that is sent carries the
    value given, and none of the four is ever sent as null. *)
Theorem find_sends_given_options self (filter projection sort skip limit : value) w :
  exists body,
    wire (Collection.find self filter projection sort skip limit w).2 =
      wire w ++ [request_of (Collection.client self) "POST"
                   (Collection._base_path self +:+ "/find")
                   (Some (VDict body)) None] /\
    dict_get "projection" body =
      (if truthy projection then Some projection else None) /\
    dict_get "sort" body = (if truthy sort then Some sort else None) /\
    dict_get "skip" body = (if is_not_None skip then Some skip else None) /\
    dict_get "limit" body = (if is_not_None limit then Some limit else None) /\
    Forall (fun k => dict_get k body <> Some VNone)
           ["projection"; "sort"; "skip"; "limit"].
Proof.
  exists (Collection.find_body filter projection sort skip limit).
  split; [apply facade_wire|].
  pose proof (find_body_get_filter filter projection sort skip limit
                "projection" ltac:(discriminate)) as Hp.
  pose proof (find_body_get_filter filter projection sort skip limit
                "sort" ltac:(discriminate)) as Ho.
  pose proof (find_body_get_filter filter projection sort skip limit
                "skip" ltac:(discriminate)) as Hs.
  pose proof (find_body_get_filter filter projection sort skip limit
                "limit" ltac:(discriminate)) as Hl.
  cbn [String.eqb Ascii.eqb Bool.eqb] in Hp, Ho, Hs, Hl.
  split; [exact Hp|]. split; [exact Ho|]. split; [exact Hs|]. split; [exact Hl|].
  repeat constructor; intros Hnull.
  - apply (eq_trans (eq_sym Hp)) in Hnull.
    destruct (truthy projection) eqn:E; [injection Hnull as ->|]; discriminate.
  - apply (eq_trans (eq_sym Ho)) in Hnull.
    destruct (truthy sort) eqn:E; [injection Hnull as ->|]; discriminate.
  - apply (eq_trans (eq_sym Hs)) in Hnull.
    destruct skip; simpl in Hnull; congruence.
  - apply (eq_trans (eq_sym Hl)) in Hnull.
    destruct limit; simpl in Hnull; congruence.
Qed.

(** C3 as stated fails: an empty projection that the caller gives is left
    out of the body, like one that is not given. *)
Lemma find_drops_empty_projection :
  is_not_None (VDict []) = true /\
  wire (@Collection.find sample_library sample_collection
          VNone (VDict []) VNone VNone VNone
          (canned (http_response 200 (VDict [("ok", VBool true)])))).2 =
    [ {| method := "POST";
         url := "http://localhost:8080/collections/users/find";
         json_body := Some (VDict [("filter", VDict [])]);
         params := None;
         request_timeout := 30 |} ].
Proof. split; reflexivity. Qed.

(** C6: [aggregate(p)] issues one request, whose body is
    [{"pipeline": p}] with the stages of [p] as given and in the order
    given. *)
Theorem aggregate_sends_pipeline_unchanged self (pipeline : list value) w :
  wire (Collection.aggregate self pipeline w).2 =
    wire w ++ [ {| method := "POST";
                   url := urljoin (Client.base_url (Collection.client self))
                            (Collection._base_path self +:+ "/aggregate");
                   json_body := Some (VDict [("pipeline", VList pipeline)]);
                   params := None;
                   request_timeout := Client.timeout (Collection.client self) |} ] /\
  (forall rq, last (wire (Collection.aggregate self pipeline w).2) = Some rq ->
     exists sent, json_body rq = Some (VDict sent) /\
                  dict_get "pipeline" sent = Some (VList pipeline) /\
                  keys sent = ["pipeline"]).
Proof.
  assert (Hwire : wire (Collection.aggregate self pipeline w).2 =
    wire w ++ [request_of (Collection.client self) "POST"
                 (Collection._base_path self +:+ "/aggregate")
                 (Some (VDict [("pipeline", VList pipeline)])) None])
    by apply facade_wire.
  split; [exact Hwire|].
  intros rq. rewrite Hwire, last_snoc. intros [= <-].
  exists [("pipeline", VList pipeline)]. repeat split.
Qed.

Lemma request_succeeds (client : Client.Client) method path body w r d :
  (forall rq, server w (wire w) rq = Responds r) ->
  ~ (400 <= status_code r < 600)%Z ->
  decoded r = inr (VDict d) ->
  ok_flag d = true ->
  (Client._request client method path body None w).1 = Ok (VDict d).
Proof.
  intros Hserver Hstatus Hdec Hok. rewrite request_run, Hserver. cbn [fst].
  apply no_http_error in Hstatus. rewrite Hstatus, Hdec, Hok. reflexivity.
Qed.

Lemma unwrap_lacks key d default w :
  lacks key d -> (Collection.unwrap (VDict d) key default w).1 = Ok default.
Proof.
  unfold Collection.unwrap, bind, lift, py_get, get_default.
  intros [Hnone|(result & Hsome & Hkey)].
  - rewrite Hnone. reflexivity.
  - rewrite Hsome. cbn. unfold get_default. rewrite Hkey. reflexivity.
Qed.

Lemma facade_default (client : Client.Client) method path body key default w r d :
  (forall rq, server w (wire w) rq = Responds r) ->
  ~ (400 <= status_code r < 600)%Z ->
  decoded r = inr (VDict d) ->
  ok_flag d = true ->
  lacks key d ->
  ((response <- Client._request client method path body None ;;
    Collection.unwrap response key default) w).1 = Ok default.
Proof.
  intros Hserver Hstatus Hdec Hok Hlacks.
  pose proof (request_succeeds client method path body w r d
                Hserver Hstatus Hdec Hok) as Hreq.
  unfold bind.
  destruct (Client._request client method path body None w) as [outcome w'].
  cbn [fst] in Hreq. subst outcome. apply unwrap_lacks, Hlacks.
Qed.

(** C7: when the server answers with success and the body's [result]
    has no entry for the field an operation expects, or the body has no
    [result], the operation returns its default and does not raise:
    [count] 0, [update_many] 0, [find] the empty list, [insert_one] the
    empty string. *)
Theorem missing_result_field_defaults self w (r : response) d :
  (forall rq, server w (wire w) rq = Responds r) ->
  ~ (400 <= status_code r < 600)%Z ->
  decoded r = inr (VDict d) ->
  ok_flag d = true ->
  (lacks "count" d ->
     forall filter, (Collection.count self filter w).1 = Ok (VInt 0)) /\
  (lacks "modified" d ->
     forall filter update,
       (Collection.update_many self filter update w).1 = Ok (VInt 0)) /\
  (lacks "documents" d ->
     forall filter projection sort skip limit,
       (Collection.find self filter projection sort skip limit w).1 =
       Ok (VList [])) /\
  (lacks "id" d ->
     forall document, (Collection.insert_one self document w).1 = Ok (VStr "")).
Proof.
  intros Hserver Hstatus Hdec Hok.
  repeat split; intros Hlacks; intros;
    apply (facade_default _ _ _ _ _ _ _ r d); assumption.
Qed.

End CollectionFacts.

Lemma missing_result_field_defaults_witness :
  let w := canned (http_response 200
                     (VDict [("ok", VBool true); ("result", VDict [])])) in
  (@Collection.count sample_library sample_collection VNone w).1 = Ok (VInt 0) /\
  (@Collection.update_many sample_library sample_collection
     (VDict []) (UpdateBuilder.update_value (UpdateBuilder.set "a" (VInt 1))) w).1
    = Ok (VInt 0) /\
  (@Collection.find sample_library sample_collection
     VNone VNone VNone VNone VNone w).1 = Ok (VList []) /\
  (@Collection.insert_one sample_library sample_collection (VDict []) w).1
    = Ok (VStr "").
Proof.
  intros w.
  destruct (@missing_result_field_defaults sample_library sample_collection w
              {| status_code := 200; reason := ""; response_url := "";
                 decoded := inr (VDict [("ok", VBool true); ("result", VDict [])]) |}
              [("ok", VBool true); ("result", VDict [])])
    as (Hcount & Hmodified & Hdocuments & Hid).
  - intros rq. reflexivity.
  - simpl. lia.
  - reflexivity.
  - reflexivity.
  - assert (Hl : forall key, lacks key [("ok", VBool true); ("result", VDict [])]).
    { intros key. right. exists []. split; reflexivity. }
    exact (conj (Hcount (Hl _) _)
             (conj (Hmodified (Hl _) _ _)
                (conj (Hdocuments (Hl _) _ _ _ _ _) (Hid (Hl _) _)))).
Defined.

(** * Further properties of the client *)

(** ** The request path, continued *)

Section RequestMoreFacts.
Context `{Library}.
Implicit Types (self : Client.Client) (w : world) (d : dict value).

(** X1: What comes back from [_request] is a JSON object that the server sent
    with a status that is no error, and whose [ok] counts as true. *)
Theorem request_returns_accepted_object self (method path : string)
    (body params : option value) w (data : value) :
  (Client._request self method path body params w).1 = Ok data ->
  exists r d,
    server w (wire w) (request_of self method path body params) = Responds r /\
    ~ (400 <= status_code r < 600)%Z /\
    decoded r = inr data /\
    data = VDict d /\ ok_flag d = true.
Proof.
  rewrite request_run. cbn [fst].
  destruct (server w (wire w) _) as [kind text|r]; [discriminate|].
  destruct (http_error_msg r) as [msg|] eqn:Hmsg; [discriminate|].
  destruct (decoded r) as [text|body'] eqn:Hdec;
    [destruct (undecodable_raises text) as [e ->]; discriminate|].
  destruct body' as [| | | | | |d]; try discriminate.
  destruct (ok_flag d) eqn:Hok; [|discriminate].
  intros [= <-]. exists r, d. repeat split; auto. apply no_http_error, Hmsg.
Qed.

(** X2: With an error status the body is not looked at: two responses that
    differ in their body only give the same [RuntimeError], so that the
    message of an API rejection sent with a 4xx or 5xx status is lost. *)
Theorem error_status_hides_body self (method path : string)
    (body params : option value) w w' (status : Z) (why where_ : string)
    (sent sent' : string + value) :
  (400 <= status < 600)%Z ->
  server w (wire w) (request_of self method path body params) =
    Responds {| status_code := status; reason := why; response_url := where_;
                decoded := sent |} ->
  server w' (wire w') (request_of self method path body params) =
    Responds {| status_code := status; reason := why; response_url := where_;
                decoded := sent' |} ->
  (Client._request self method path body params w).1 =
  (Client._request self method path body params w').1 /\
  is_transport_error (Client._request self method path body params w).1 = true.
Proof.
  intros Hstatus Hw Hw'. rewrite !request_run, Hw, Hw'. cbn [fst].
  unfold http_error_msg. cbn [status_code reason response_url].
  destruct (decide (400 <= status < 500)%Z); [split; reflexivity|].
  destruct (decide (500 <= status < 600)%Z); [split; reflexivity|]. lia.
Qed.

Lemma silent_lift {A B} (f : A -> result B) : silent (fun a => lift (f a)).
Proof. intros a w. reflexivity. Qed.

Lemma silent_unwrap key default :
  silent (fun response => Collection.unwrap response key default).
Proof. intros response w. apply unwrap_world. Qed.

Lemma silent_unwrap_positive key :
  silent (fun response => Collection.unwrap_positive response key).
Proof.
  intros response w. unfold Collection.unwrap_positive, bind, lift.
  destruct (py_get response "result" (VDict [])) as [result|e]; [|reflexivity].
  destruct (py_get result key (VInt 0)); reflexivity.
Qed.

Lemma silent_list_collections :
  silent (fun response : value =>
            result <- lift (py_get response "result" (VDict [])) ;;
            lift (py_get result "collections" (VList []))).
Proof.
  intros response w. unfold bind, lift.
  destruct (py_get response "result" (VDict [])); reflexivity.
Qed.

Lemma bind_request_wire self method path body params (k : value -> M value) w :
  silent k ->
  wire ((response <- Client._request self method path body params ;;
         k response) w).2
  = wire w ++ [request_of self method path body params].
Proof.
  intros Hk. unfold bind.
  pose proof (request_world self method path body params w) as Hw.
  destruct (Client._request self method path body params w) as [[data|e] w1];
    cbn [snd] in Hw; subst w1; [rewrite Hk|]; reflexivity.
Qed.

Lemma bind_request_raise self method path body params (k : value -> M value) w e :
  (Client._request self method path body params w).1 = Raise e ->
  ((response <- Client._request self method path body params ;; k response) w).1
  = Raise e.
Proof.
  unfold bind.
  destruct (Client._request self method path body params w) as [[data|e'] w1];
    cbn [fst]; [discriminate | intros [= ->]; reflexivity].
Qed.

Lemma bind_request_ok self method path body params (k : value -> M value) w data :
  (Client._request self method path body params w).1 = Ok data ->
  ((response <- Client._request self method path body params ;; k response) w).1
  = (k data (Client._request self method path body params w).2).1.
Proof.
  unfold bind.
  destruct (Client._request self method path body params w) as [[data'|e'] w1];
    cbn [fst snd]; [intros [= ->]; reflexivity | discriminate].
Qed.

End RequestMoreFacts.

(** ** One request per operation *)

Section WireFacts.
Context `{Library}.
Implicit Types (self : Collection.Collection) (w : world).

Lemma ping_world (c : Client.Client) w :
  (Client.ping c w).2 =
  {| wire := wire w ++ [request_of c "GET" "/ping" None None];
     server := server w |}.
Proof.
  unfold Client.ping, try_except, bind.
  pose proof (request_world c "GET" "/ping" None None w) as Hw.
  destruct (Client._request c "GET" "/ping" None None w) as [[data|e] w1];
    cbn [snd] in Hw; subst w1; [|reflexivity].
  unfold lift. destruct (py_get data "ok" (VBool false)); reflexivity.
Qed.

(** X4: Every operation of the client and of a collection issues exactly one
    request, whatever the server answers and whether the operation
    returns or raises: the method, the path under the collection and the
    body are the ones listed.  [update_many], [update_one], [delete_many]
    and [delete_one] send the filter as it is given, [None] included;
    [count] and [find_one] replace a filter that counts as false by an
    empty mapping. *)
Theorem one_request_per_operation self w :
  let c := Collection.client self in
  let base := Collection._base_path self in
  let sends (op : M value) method path body :=
    wire (op w).2 = wire w ++ [request_of c method path body None] in
  (forall document,
     sends (Collection.insert_one self document) "POST" (base +:+ "/insert")
           (Some (VDict [("document", document)]))) /\
  (forall documents,
     sends (Collection.insert_many self documents) "POST"
           (base +:+ "/insert-many")
           (Some (VDict [("documents", documents)]))) /\
  (forall filter projection,
     sends (Collection.find_one self filter projection) "POST"
           (base +:+ "/find-one")
           (Some (VDict (("filter", py_or filter (VDict [])) ::
                         if truthy projection
                         then [("projection", projection)] else [])))) /\
  (forall filter,
     sends (Collection.count self filter) "POST" (base +:+ "/count")
           (Some (VDict [("filter", py_or filter (VDict []))]))) /\
  (forall filter update,
     sends (Collection.update_one self filter update) "POST"
           (base +:+ "/update-one")
           (Some (VDict [("filter", filter); ("update", update)]))) /\
  (forall filter update,
     sends (Collection.update_many self filter update) "POST"
           (base +:+ "/update-many")
           (Some (VDict [("filter", filter); ("update", update)]))) /\
  (forall filter,
     sends (Collection.delete_one self filter) "POST" (base +:+ "/delete-one")
           (Some (VDict [("filter", filter)]))) /\
  (forall filter,
     sends (Collection.delete_many self filter) "POST"
           (base +:+ "/delete-many")
           (Some (VDict [("filter", filter)]))) /\
  sends (Collection.list_indexes self) "GET" (base +:+ "/indexes") None /\
  (forall name,
     sends (Collection.drop_index self name) "DELETE"
           (base +:+ "/indexes/" +:+ name) None) /\
  sends (Collection.stats self) "GET" (base +:+ "/stats") None /\
  sends (Client.stats c) "GET" "/stats" None /\
  sends (Client.list_collections c) "GET" "/collections" None /\
  (forall name,
     sends (Client.create_collection c name) "POST" ("/collections/" +:+ name)
           None) /\
  (forall name,
     sends (Client.drop_collection c name) "DELETE" ("/collections/" +:+ name)
           None) /\
  sends (Client.ping c) "GET" "/ping" None.
Proof.
  intros c base sends. subst sends. cbn beta.
  repeat split; intros;
    try (apply bind_request_wire;
         first [ apply silent_unwrap | apply silent_unwrap_positive
               | apply silent_list_collections
               | apply (silent_lift (fun r => py_get r _ _)) ]).
  - unfold Collection.find_one.
    destruct (truthy projection);
      (apply bind_request_wire; apply silent_unwrap).
  - rewrite ping_world. reflexivity.
Qed.

End WireFacts.

(** ** What the operations return and raise *)

Section FacadeMoreFacts.
Context `{Library}.
Implicit Types (self : Collection.Collection) (w : world) (d : dict value).

(** X5: No operation other than [ping] catches what [_request] raises: in a
    world where the requests raise [e], every operation of the client and
    of a collection raises that same [e], while [ping] returns [False]. *)
Theorem operations_raise_what_request_raises self w (e : exn) :
  (forall c method path body,
     (Client._request c method path body None w).1 = Raise e) ->
  let c := Collection.client self in
  let raises (op : M value) := (op w).1 = Raise e in
  (forall document, raises (Collection.insert_one self document)) /\
  (forall documents, raises (Collection.insert_many self documents)) /\
  (forall filter projection, raises (Collection.find_one self filter projection)) /\
  (forall filter projection sort skip limit,
     raises (Collection.find self filter projection sort skip limit)) /\
  (forall filter, raises (Collection.count self filter)) /\
  (forall filter update, raises (Collection.update_one self filter update)) /\
  (forall filter update, raises (Collection.update_many self filter update)) /\
  (forall filter, raises (Collection.delete_one self filter)) /\
  (forall filter, raises (Collection.delete_many self filter)) /\
  (forall pipeline, raises (Collection.aggregate self pipeline)) /\
  (forall field unique sparse name,
     raises (Collection.create_index self field unique sparse name)) /\
  (forall fields unique name,
     raises (Collection.create_compound_index self fields unique name)) /\
  (forall fields name, raises (Collection.create_text_index self fields name)) /\
  (forall field geo_type name,
     raises (Collection.create_geo_index self field geo_type name)) /\
  (forall field seconds name,
     raises (Collection.create_ttl_index self field seconds name)) /\
  (forall field filter_expr unique name,
     raises (Collection.create_partial_index self field filter_expr unique name)) /\
  raises (Collection.list_indexes self) /\
  (forall name, raises (Collection.drop_index self name)) /\
  raises (Collection.stats self) /\
  raises (Client.stats c) /\
  raises (Client.list_collections c) /\
  (forall name, raises (Client.create_collection c name)) /\
  (forall name, raises (Client.drop_collection c name)) /\
  (Client.ping c w).1 = Ok (VBool false).
Proof.
  intros Hraise c raises. subst raises. cbn beta.
  repeat split; intros;
    try (apply bind_request_raise, Hraise).
  unfold Client.ping, try_except.
  rewrite (surjective_pairing ((_ <- _ ;; _) w)).
  rewrite (bind_request_raise c "GET" "/ping" None None _ w e (Hraise _ _ _ _)).
  reflexivity.
Qed.

Lemma request_ok_inv (c : Client.Client) (method path : string)
    (body params : option value) w (data : value) :
  (Client._request c method path body params w).1 = Ok data ->
  exists d, data = VDict d /\ ok_flag d = true.
Proof.
  rewrite request_run. cbn [fst].
  destruct (server w (wire w) _) as [kind text|r]; [discriminate|].
  destruct (http_error_msg r) as [msg|]; [discriminate|].
  destruct (decoded r) as [text|body'];
    [destruct (undecodable_raises text) as [e ->]; discriminate|].
  destruct body' as [| | | | | |d]; try discriminate.
  destruct (ok_flag d) eqn:Hok; [|discriminate].
  intros [= <-]. exists d. split; [reflexivity | exact Hok].
Qed.

Lemma acknowledged_is_true (c : Client.Client) method path body w :
  returns_only_true
    ((response <- Client._request c method path body None ;;
      lift (py_get response "ok" (VBool false))) w).1.
Proof.
  intros v. unfold bind.
  destruct (Client._request c method path body None w) as [[data|e] w1] eqn:Hreq;
    [|discriminate].
  destruct (request_ok_inv c method path body None w data) as (d & -> & Hok).
  { rewrite Hreq. reflexivity. }
  cbn. intros [= <-]. rewrite ok_flag_get_default. exact Hok.
Qed.

(** X6: The operations that answer with the [ok] of the response never
    return [False]: when they return, what they return counts as true,
    and a failure always shows as an exception. *)
Theorem acknowledgements_are_true self w :
  let c := Collection.client self in
  (forall name, returns_only_true (Client.create_collection c name w).1) /\
  (forall name, returns_only_true (Client.drop_collection c name w).1) /\
  (forall field unique sparse name,
     returns_only_true
       (Collection.create_index self field unique sparse name w).1) /\
  (forall fields unique name,
     returns_only_true
       (Collection.create_compound_index self fields unique name w).1) /\
  (forall fields name,
     returns_only_true (Collection.create_text_index self fields name w).1) /\
  (forall field geo_type name,
     returns_only_true
       (Collection.create_geo_index self field geo_type name w).1) /\
  (forall field seconds name,
     returns_only_true
       (Collection.create_ttl_index self field seconds name w).1) /\
  (forall field filter_expr unique name,
     returns_only_true
       (Collection.create_partial_index self field filter_expr unique name w).1) /\
  (forall name, returns_only_true (Collection.drop_index self name w).1).
Proof.
  intros c. repeat split; intros; apply acknowledged_is_true.
Qed.

Lemma unwrap_positive_bool (response : value) key w :
  returns_only_bool (Collection.unwrap_positive response key w).1.
Proof.
  intros v. unfold Collection.unwrap_positive, bind, lift.
  destruct (py_get response "result" (VDict [])) as [result|e]; [|discriminate].
  destruct (py_get result key (VInt 0)) as [n|e]; [|discriminate].
  destruct n; cbn; try discriminate; intros [= <-]; eauto.
Qed.

(** X7: [update_one] and [delete_one] return nothing but booleans, whatever
    the server puts under [modified] and [deleted]. *)
Theorem one_document_operations_return_bool self w :
  (forall filter update,
     returns_only_bool (Collection.update_one self filter update w).1) /\
  (forall filter, returns_only_bool (Collection.delete_one self filter w).1).
Proof.
  split; intros; intros v; unfold Collection.update_one, Collection.delete_one, bind;
    match goal with |- context [Client._request ?c ?m ?p ?b ?q w] =>
      destruct (Client._request c m p b q w) as [[data|e] w1] end;
    try discriminate; apply unwrap_positive_bool.
Qed.

End FacadeMoreFacts.

Lemma operations_raise_what_request_raises_witness :
  (@Collection.count sample_library sample_collection VNone refusing).1 =
    Raise (RuntimeError "HTTP request failed: connection refused") /\
  (@Collection.delete_many sample_library sample_collection (VDict []) refusing).1 =
    Raise (RuntimeError "HTTP request failed: connection refused") /\
  (@Client.ping sample_library sample_client refusing).1 = Ok (VBool false).
Proof.
  pose proof (@operations_raise_what_request_raises sample_library
                sample_collection refusing
                (RuntimeError "HTTP request failed: connection refused")
                (fun c method path body => eq_refl)) as Hall.
  cbn zeta beta in Hall.
  split; [apply Hall|]. split; apply Hall.
Defined.

Section ResultFacts.
Context `{Library}.
Implicit Types (self : Collection.Collection) (w : world) (d : dict value).

Lemma after_success (c : Client.Client) method path body (k : value -> M value)
    w (r : response) d :
  (forall rq, server w (wire w) rq = Responds r) ->
  ~ (400 <= status_code r < 600)%Z ->
  decoded r = inr (VDict d) ->
  ok_flag d = true ->
  ((response <- Client._request c method path body None ;; k response) w).1
  = (k (VDict d) (Client._request c method path body None w).2).1.
Proof.
  intros Hserver Hstatus Hdec Hok.
  apply bind_request_ok.
  apply (request_succeeds c method path body w r d); assumption.
Qed.

Lemma unwrap_present key d (result : dict value) v default w :
  dict_get "result" d = Some (VDict result) ->
  dict_get key result = Some v ->
  (Collection.unwrap (VDict d) key default w).1 = Ok v.
Proof.
  intros Hresult Hkey.
  unfold Collection.unwrap, bind, lift, py_get, get_default.
  rewrite Hresult. cbn. unfold get_default. rewrite Hkey. reflexivity.
Qed.

Lemma unwrap_non_dict key d v default w :
  dict_get "result" d = Some v ->
  is_dict v = false ->
  (Collection.unwrap (VDict d) key default w).1 =
  Raise (AttributeError ("'" +:+ type_name v +:+ "' object has no attribute 'get'")).
Proof.
  intros Hresult Hv.
  unfold Collection.unwrap, bind, lift. cbn [py_get]. unfold get_default.
  rewrite Hresult. destruct v; try discriminate; reflexivity.
Qed.

Lemma unwrap_positive_lacks key d w :
  lacks key d -> (Collection.unwrap_positive (VDict d) key w).1 = Ok (VBool false).
Proof.
  unfold Collection.unwrap_positive, bind, lift, py_get, get_default.
  intros [Hnone|(result & Hsome & Hkey)].
  - rewrite Hnone. reflexivity.
  - rewrite Hsome. cbn. unfold get_default. rewrite Hkey. reflexivity.
Qed.

Lemma unwrap_positive_present key d (result : dict value) v w :
  dict_get "result" d = Some (VDict result) ->
  dict_get key result = Some v ->
  (Collection.unwrap_positive (VDict d) key w).1 = py_gt_zero v.
Proof.
  intros Hresult Hkey.
  unfold Collection.unwrap_positive, bind, lift, py_get, get_default.
  rewrite Hresult. cbn. unfold get_default. rewrite Hkey.
  destruct (py_gt_zero v); reflexivity.
Qed.

(** X8: After a success, [update_one] tells whether the count under
    [modified] is positive, and [delete_one] the same for [deleted]:
    [False] when the field or the whole [result] is missing, the sign test
    for an integer, and a [TypeError] when the field is null. *)
Theorem one_document_operations_test_the_count self w (r : response) d :
  (forall rq, server w (wire w) rq = Responds r) ->
  ~ (400 <= status_code r < 600)%Z ->
  decoded r = inr (VDict d) ->
  ok_flag d = true ->
  (lacks "modified" d ->
     forall filter update,
       (Collection.update_one self filter update w).1 = Ok (VBool false)) /\
  (lacks "deleted" d ->
     forall filter, (Collection.delete_one self filter w).1 = Ok (VBool false)) /\
  (forall result n filter update,
     dict_get "result" d = Some (VDict result) ->
     dict_get "modified" result = Some (VInt n) ->
     (Collection.update_one self filter update w).1 = Ok (VBool (0 <? n)%Z)) /\
  (forall result n filter,
     dict_get "result" d = Some (VDict result) ->
     dict_get "deleted" result = Some (VInt n) ->
     (Collection.delete_one self filter w).1 = Ok (VBool (0 <? n)%Z)) /\
  (forall result filter update,
     dict_get "result" d = Some (VDict result) ->
     dict_get "modified" result = Some VNone ->
     exists text,
       (Collection.update_one self filter update w).1 = Raise (TypeError text)).
Proof.
  intros Hserver Hstatus Hdec Hok.
  split; [|split; [|split; [|split]]].
  - intros Hl filter update. unfold Collection.update_one.
    rewrite (after_success _ _ _ _ _ w r d) by assumption.
    apply unwrap_positive_lacks, Hl.
  - intros Hl filter. unfold Collection.delete_one.
    rewrite (after_success _ _ _ _ _ w r d) by assumption.
    apply unwrap_positive_lacks, Hl.
  - intros result n filter update Hresult Hn. unfold Collection.update_one.
    rewrite (after_success _ _ _ _ _ w r d) by assumption.
    rewrite (unwrap_positive_present _ _ _ _ _ Hresult Hn). reflexivity.
  - intros result n filter Hresult Hn. unfold Collection.delete_one.
    rewrite (after_success _ _ _ _ _ w r d) by assumption.
    rewrite (unwrap_positive_present _ _ _ _ _ Hresult Hn). reflexivity.
  - intros result filter update Hresult Hn. unfold Collection.update_one.
    rewrite (after_success _ _ _ _ _ w r d) by assumption.
    rewrite (unwrap_positive_present _ _ _ _ _ Hresult Hn).
    eexists. reflexivity.
Qed.

(** X9: After a success whose [result] lacks the field an operation reads,
    or that has no [result], the operations not named in C7 return their
    defaults as well: [find_one] [None], [insert_many], [list_indexes] and
    [list_collections] the empty list, [delete_many] 0, [aggregate] the
    empty list; and the two [stats] return an empty mapping when there is
    no [result]. *)
Theorem other_operations_default self w (r : response) d :
  (forall rq, server w (wire w) rq = Responds r) ->
  ~ (400 <= status_code r < 600)%Z ->
  decoded r = inr (VDict d) ->
  ok_flag d = true ->
  let c := Collection.client self in
  (lacks "document" d ->
     forall filter projection,
       (Collection.find_one self filter projection w).1 = Ok VNone) /\
  (lacks "ids" d ->
     forall documents,
       (Collection.insert_many self documents w).1 = Ok (VList [])) /\
  (lacks "deleted" d ->
     forall filter, (Collection.delete_many self filter w).1 = Ok (VInt 0)) /\
  (lacks "documents" d ->
     forall pipeline, (Collection.aggregate self pipeline w).1 = Ok (VList [])) /\
  (lacks "indexes" d -> (Collection.list_indexes self w).1 = Ok (VList [])) /\
  (lacks "collections" d -> (Client.list_collections c w).1 = Ok (VList [])) /\
  (dict_get "result" d = None ->
     (Collection.stats self w).1 = Ok (VDict []) /\
     (Client.stats c w).1 = Ok (VDict [])).
Proof.
  intros Hserver Hstatus Hdec Hok c.
  repeat apply conj; try (intros Hl; intros;
    apply (facade_default _ _ _ _ _ _ _ r d); assumption).
  intros Hnone. split.
  - unfold Collection.stats.
    etransitivity; [apply (after_success _ _ _ _ _ w r d); assumption|].
    cbn. unfold get_default. rewrite Hnone. reflexivity.
  - unfold Client.stats.
    etransitivity; [apply (after_success _ _ _ _ _ w r d); assumption|].
    cbn. unfold get_default. rewrite Hnone. reflexivity.
Qed.

(** X10: The default stands in for a missing field only.  After a success
    whose [result] is an object, an operation returns what the server put
    under its field as it is, whatever its type: a null count comes back
    as [None], not as 0.  The two [stats] return the [result] itself. *)
Theorem present_fields_come_back_unchanged self w (r : response) d
    (result : dict value) :
  (forall rq, server w (wire w) rq = Responds r) ->
  ~ (400 <= status_code r < 600)%Z ->
  decoded r = inr (VDict d) ->
  ok_flag d = true ->
  dict_get "result" d = Some (VDict result) ->
  let c := Collection.client self in
  (forall v document, dict_get "id" result = Some v ->
     (Collection.insert_one self document w).1 = Ok v) /\
  (forall v documents, dict_get "ids" result = Some v ->
     (Collection.insert_many self documents w).1 = Ok v) /\
  (forall v filter projection, dict_get "document" result = Some v ->
     (Collection.find_one self filter projection w).1 = Ok v) /\
  (forall v filter projection sort skip limit,
     dict_get "documents" result = Some v ->
     (Collection.find self filter projection sort skip limit w).1 = Ok v) /\
  (forall v filter, dict_get "count" result = Some v ->
     (Collection.count self filter w).1 = Ok v) /\
  (forall v filter update, dict_get "modified" result = Some v ->
     (Collection.update_many self filter update w).1 = Ok v) /\
  (forall v filter, dict_get "deleted" result = Some v ->
     (Collection.delete_many self filter w).1 = Ok v) /\
  (forall v pipeline, dict_get "documents" result = Some v ->
     (Collection.aggregate self pipeline w).1 = Ok v) /\
  (forall v, dict_get "indexes" result = Some v ->
     (Collection.list_indexes self w).1 = Ok v) /\
  (forall v, dict_get "collections" result = Some v ->
     (Client.list_collections c w).1 = Ok v) /\
  (Collection.stats self w).1 = Ok (VDict result) /\
  (Client.stats c w).1 = Ok (VDict result).
Proof.
  intros Hserver Hstatus Hdec Hok Hresult c.
  assert (Hunwrap : forall client method path body key default v,
    dict_get key result = Some v ->
    ((response <- Client._request client method path body None ;;
      Collection.unwrap response key default) w).1 = Ok v).
  { intros client method path body key default v Hkey.
    etransitivity; [apply (after_success _ _ _ _ _ w r d); assumption|].
    apply (unwrap_present key d result v default _ Hresult Hkey). }
  repeat apply conj; intros; try (apply Hunwrap; assumption).
  - unfold Collection.stats.
    etransitivity; [apply (after_success _ _ _ _ _ w r d); assumption|].
    cbn. unfold get_default. rewrite Hresult. reflexivity.
  - unfold Client.stats.
    etransitivity; [apply (after_success _ _ _ _ _ w r d); assumption|].
    cbn. unfold get_default. rewrite Hresult. reflexivity.
Qed.

(** X11: A success whose [result] is present and is no object (null, for
    one) makes the operations that read a field of it raise
    [AttributeError], which is neither of the two errors of [_request];
    the two [stats] return that [result] as it is. *)
Theorem non_object_result_raises self w (r : response) d (v : value) :
  (forall rq, server w (wire w) rq = Responds r) ->
  ~ (400 <= status_code r < 600)%Z ->
  decoded r = inr (VDict d) ->
  ok_flag d = true ->
  dict_get "result" d = Some v ->
  is_dict v = false ->
  let c := Collection.client self in
  let fails (op : M value) :=
    (op w).1 = Raise (AttributeError ("'" +:+ type_name v
                                      +:+ "' object has no attribute 'get'")) in
  (forall document, fails (Collection.insert_one self document)) /\
  (forall documents, fails (Collection.insert_many self documents)) /\
  (forall filter projection, fails (Collection.find_one self filter projection)) /\
  (forall filter projection sort skip limit,
     fails (Collection.find self filter projection sort skip limit)) /\
  (forall filter, fails (Collection.count self filter)) /\
  (forall filter update, fails (Collection.update_many self filter update)) /\
  (forall filter, fails (Collection.delete_many self filter)) /\
  (forall pipeline, fails (Collection.aggregate self pipeline)) /\
  fails (Collection.list_indexes self) /\
  fails (Client.list_collections c) /\
  (Collection.stats self w).1 = Ok v /\
  (Client.stats c w).1 = Ok v.
Proof.
  intros Hserver Hstatus Hdec Hok Hresult Hv c fails. subst fails. cbn beta.
  assert (Hunwrap : forall client method path body key default,
    ((response <- Client._request client method path body None ;;
      Collection.unwrap response key default) w).1 =
    Raise (AttributeError ("'" +:+ type_name v
                           +:+ "' object has no attribute 'get'"))).
  { intros client method path body key default.
    etransitivity; [apply (after_success _ _ _ _ _ w r d); assumption|].
    apply (unwrap_non_dict key d v default _ Hresult Hv). }
  repeat apply conj; intros; try apply Hunwrap.
  - unfold Collection.stats.
    etransitivity; [apply (after_success _ _ _ _ _ w r d); assumption|].
    cbn. unfold get_default. rewrite Hresult. reflexivity.
  - unfold Client.stats.
    etransitivity; [apply (after_success _ _ _ _ _ w r d); assumption|].
    cbn. unfold get_default. rewrite Hresult. reflexivity.
Qed.

End ResultFacts.

Lemma request_returns_accepted_object_witness :
  exists r d,
    server (canned (http_response 200 (VDict [("ok", VBool true)]))) []
      (@request_of sample_library sample_client "GET" "/stats" None None)
      = Responds r /\
    ~ (400 <= status_code r < 600)%Z /\
    decoded r = inr (VDict [("ok", VBool true)]) /\
    VDict [("ok", VBool true)] = VDict d /\ ok_flag d = true.
Proof.
  apply (@request_returns_accepted_object sample_library sample_client
           "GET" "/stats" None None
           (canned (http_response 200 (VDict [("ok", VBool true)])))
           (VDict [("ok", VBool true)])).
  reflexivity.
Defined.

Lemma error_status_hides_body_witness :
  (@Client._request sample_library sample_client "POST" "/x" None None
     (canned (http_response 400
        (VDict [("ok", VBool false); ("message", VStr "duplicate key")])))).1 =
  (@Client._request sample_library sample_client "POST" "/x" None None
     (canned (Responds {| status_code := 400; reason := "";
                          response_url := ""; decoded := inl "no JSON" |}))).1 /\
  is_transport_error
    (@Client._request sample_library sample_client "POST" "/x" None None
       (canned (http_response 400
          (VDict [("ok", VBool false); ("message", VStr "duplicate key")])))).1
  = true.
Proof.
  apply (@error_status_hides_body sample_library sample_client "POST" "/x"
           None None _ _ 400 "" ""
           (inr (VDict [("ok", VBool false); ("message", VStr "duplicate key")]))
           (inl "no JSON")).
  - lia.
  - reflexivity.
  - reflexivity.
Defined.

Lemma one_document_operations_test_the_count_witness :
  (@Collection.update_one sample_library sample_collection (VDict []) (VDict [])
     (canned (http_response 200
        (VDict [("ok", VBool true);
                ("result", VDict [("modified", VInt 2)])])))).1
  = Ok (VBool true).
Proof.
  refine (proj1 (proj2 (proj2
    (@one_document_operations_test_the_count sample_library sample_collection
       (canned (http_response 200
          (VDict [("ok", VBool true);
                  ("result", VDict [("modified", VInt 2)])])))
       (plain_response 200
          (VDict [("ok", VBool true);
                  ("result", VDict [("modified", VInt 2)])]))
       [("ok", VBool true); ("result", VDict [("modified", VInt 2)])]
       (fun rq => eq_refl) _ eq_refl eq_refl)))
    [("modified", VInt 2)] 2%Z (VDict []) (VDict []) eq_refl eq_refl).
  simpl. lia.
Defined.

Lemma other_operations_default_witness :
  (@Collection.find_one sample_library sample_collection VNone VNone
     (canned (http_response 200 (VDict [("ok", VBool true)])))).1 = Ok VNone /\
  (@Client.list_collections sample_library sample_client
     (canned (http_response 200 (VDict [("ok", VBool true)])))).1 = Ok (VList []).
Proof.
  pose proof (@other_operations_default sample_library sample_collection
                (canned (http_response 200 (VDict [("ok", VBool true)])))
                (plain_response 200 (VDict [("ok", VBool true)]))
                [("ok", VBool true)]
                (fun rq => eq_refl)) as Hall.
  cbn zeta in Hall.
  destruct Hall as (Hfind & _ & _ & _ & _ & Hlist & _);
    [simpl; lia | reflexivity | reflexivity |].
  split.
  - apply Hfind. left. reflexivity.
  - apply Hlist. left. reflexivity.
Defined.

Lemma present_fields_come_back_unchanged_witness :
  (@Collection.count sample_library sample_collection VNone
     (canned (http_response 200
        (VDict [("ok", VBool true);
                ("result", VDict [("count", VNone)])])))).1 = Ok VNone.
Proof.
  pose proof (@present_fields_come_back_unchanged sample_library
                sample_collection
                (canned (http_response 200
                   (VDict [("ok", VBool true);
                           ("result", VDict [("count", VNone)])])))
                (plain_response 200
                   (VDict [("ok", VBool true);
                           ("result", VDict [("count", VNone)])]))
                [("ok", VBool true); ("result", VDict [("count", VNone)])]
                [("count", VNone)]
                (fun rq => eq_refl)) as Hall.
  cbn zeta in Hall.
  destruct Hall as (_ & _ & _ & _ & Hcount & _);
    [simpl; lia | reflexivity | reflexivity | reflexivity |].
  apply Hcount. reflexivity.
Defined.

Lemma non_object_result_raises_witness :
  (@Collection.count sample_library sample_collection VNone
     (canned (http_response 200
        (VDict [("ok", VBool true); ("result", VNone)])))).1 =
  Raise (AttributeError "'NoneType' object has no attribute 'get'").
Proof.
  pose proof (@non_object_result_raises sample_library sample_collection
                (canned (http_response 200
                   (VDict [("ok", VBool true); ("result", VNone)])))
                (plain_response 200
                   (VDict [("ok", VBool true); ("result", VNone)]))
                [("ok", VBool true); ("result", VNone)]
                VNone
                (fun rq => eq_refl)) as Hall.
  cbn zeta beta in Hall.
  destruct Hall as (_ & _ & _ & _ & Hcount & _);
    [simpl; lia | reflexivity | reflexivity | reflexivity | reflexivity |].
  apply Hcount.
Defined.

(** ** Request bodies *)

Section BodyFacts.
Context `{Library}.
Implicit Types (self : Collection.Collection) (w : world).

(** X12: [find_one] sends the body [find] sends when [sort], [skip] and
    [limit] are left out: the filter, and the projection when it counts as
    true. *)
Theorem find_one_body_is_find_body self (filter projection : value) w :
  let body := Collection.find_body filter projection VNone VNone VNone in
  let c := Collection.client self in
  wire (Collection.find_one self filter projection w).2 =
    wire w ++ [request_of c "POST" (Collection._base_path self +:+ "/find-one")
                 (Some (VDict body)) None] /\
  wire (Collection.find self filter projection VNone VNone VNone w).2 =
    wire w ++ [request_of c "POST" (Collection._base_path self +:+ "/find")
                 (Some (VDict body)) None] /\
  keys body = "filter" :: (if truthy projection then ["projection"] else []).
Proof.
  intros body c. subst body. unfold Collection.find_body. cbn [is_not_None].
  repeat apply conj.
  - apply bind_request_wire, silent_unwrap.
  - apply bind_request_wire, silent_unwrap.
  - destruct (truthy projection); reflexivity.
Qed.

(** X13: A filter that counts as false ([None], an empty mapping) is sent by
    [count], [find] and [find_one] as the empty mapping: the requests are
    those of the same call with [{}]. *)
Theorem empty_filter_is_sent_as_empty_mapping self (filter : value) w :
  truthy filter = false ->
  (wire (Collection.count self filter w).2 =
   wire (Collection.count self (VDict []) w).2) /\
  (forall projection,
     wire (Collection.find_one self filter projection w).2 =
     wire (Collection.find_one self (VDict []) projection w).2) /\
  (forall projection sort skip limit,
     wire (Collection.find self filter projection sort skip limit w).2 =
     wire (Collection.find self (VDict []) projection sort skip limit w).2).
Proof.
  intros Hfalse.
  assert (Hor : py_or filter (VDict []) = py_or (VDict []) (VDict [])).
  { unfold py_or. rewrite Hfalse. reflexivity. }
  repeat apply conj; intros.
  - unfold Collection.count. rewrite Hor. reflexivity.
  - unfold Collection.find_one. rewrite Hor. reflexivity.
  - unfold Collection.find, Collection.find_body. rewrite Hor. reflexivity.
Qed.

(** X14: Each [create_..._index] of a collection sends as its body the
    configuration that the builder of the same kind in [Index] makes from
    the same arguments ([create_text_index] that of a text index without
    weights). *)
Theorem index_bodies_are_index_configs self w :
  let c := Collection.client self in
  let base := Collection._base_path self in
  let sends (op : M value) path config :=
    wire (op w).2 = wire w ++ [request_of c "POST" path (Some (VDict config)) None] in
  (forall field unique sparse name,
     sends (Collection.create_index self field unique sparse name)
           (base +:+ "/indexes")
           (Index.create_btree_config field unique sparse name)) /\
  (forall fields unique name,
     sends (Collection.create_compound_index self fields unique name)
           (base +:+ "/indexes/compound")
           (Index.create_compound_config fields unique name)) /\
  (forall fields name,
     sends (Collection.create_text_index self fields name)
           (base +:+ "/indexes/text")
           (Index.create_text_config fields name VNone)) /\
  (forall field geo_type name,
     sends (Collection.create_geo_index self field geo_type name)
           (base +:+ "/indexes/geo")
           (Index.create_geo_config field geo_type name)) /\
  (forall field seconds name,
     sends (Collection.create_ttl_index self field seconds name)
           (base +:+ "/indexes/ttl")
           (Index.create_ttl_config field seconds name)) /\
  (forall field filter_expr unique name,
     sends (Collection.create_partial_index self field filter_expr unique name)
           (base +:+ "/indexes/partial")
           (Index.create_partial_config field filter_expr unique name)).
Proof.
  intros c base sends. subst sends. cbn beta.
  repeat apply conj; intros;
    apply bind_request_wire, (silent_lift (fun r => py_get r "ok" (VBool false))).
Qed.

End BodyFacts.

Lemma empty_filter_is_sent_as_empty_mapping_witness :
  wire (@Collection.count sample_library sample_collection VNone refusing).2 =
  wire (@Collection.count sample_library sample_collection (VDict []) refusing).2.
Proof.
  apply (@empty_filter_is_sent_as_empty_mapping sample_library
           sample_collection VNone refusing).
  reflexivity.
Defined.

(** ** Index configurations *)

(** X15: Every configuration builder of [Index] keeps the values it is given
    under their keys, and adds [name] exactly when the name counts as
    true, so that a configuration never holds a null or an empty name;
    [create_text_config] adds [weights] in the same way.  No key occurs
    twice. *)
Theorem index_configs_name_only_when_given (name : value) :
  let named (config : dict value) :=
    dict_get "name" config = (if truthy name then Some name else None) /\
    dict_get "name" config <> Some VNone /\
    dict_get "name" config <> Some (VStr "") /\
    NoDup (keys config) in
  (forall field unique sparse,
     let config := Index.create_btree_config field unique sparse name in
     named config /\
     dict_get "field" config = Some field /\
     dict_get "unique" config = Some unique /\
     dict_get "sparse" config = Some sparse) /\
  (forall fields unique,
     let config := Index.create_compound_config fields unique name in
     named config /\
     dict_get "fields" config = Some fields /\
     dict_get "unique" config = Some unique) /\
  (forall fields weights,
     let config := Index.create_text_config fields name weights in
     named config /\
     dict_get "fields" config = Some fields /\
     dict_get "weights" config =
       (if truthy weights then Some weights else None)) /\
  (forall field geo_type,
     let config := Index.create_geo_config field geo_type name in
     named config /\
     dict_get "field" config = Some field /\
     dict_get "geoType" config = Some geo_type) /\
  (forall field seconds,
     let config := Index.create_ttl_config field seconds name in
     named config /\
     dict_get "field" config = Some field /\
     dict_get "expireAfterSeconds" config = Some seconds) /\
  (forall field filter_expr unique,
     let config := Index.create_partial_config field filter_expr unique name in
     named config /\
     dict_get "field" config = Some field /\
     dict_get "filterExpression" config = Some filter_expr /\
     dict_get "unique" config = Some unique).
Proof.
  intros named. subst named. cbn beta zeta.
  assert (Hnone : truthy name = true -> Some name <> Some VNone)
    by (intros Ht [= ->]; discriminate).
  assert (Hempty : truthy name = true -> Some name <> Some (VStr ""))
    by (intros Ht [= ->]; discriminate).
  unfold Index.create_btree_config, Index.create_compound_config,
    Index.create_text_config, Index.create_geo_config, Index.create_ttl_config,
    Index.create_partial_config.
  destruct (truthy name) eqn:Hname;
    repeat apply conj; intros; cbn zeta; repeat apply conj;
    try (destruct (truthy weights));
    try reflexivity;
    try (apply Hnone; reflexivity);
    try (apply Hempty; reflexivity);
    try discriminate;
    try (refine (bool_decide_unpack _ _); vm_compute; exact I).
Qed.

(** ** [Index.analyze_query_plan] *)

Section PlanFacts.
Context `{Library}.
Implicit Types (d : dict value) (lines : list string).

Lemma execution_lines_dict d :
  Index.execution_lines (VDict d) =
  match dict_get "executionStats" d with
  | None => Ok []
  | Some (VDict stats) =>
      Ok [ "Execution Time: "
             +:+ format_value (get_default "executionTimeMs" (VInt 0) stats)
             +:+ "ms";
           "Documents Examined: "
             +:+ format_value (get_default "documentsExamined" (VInt 0) stats);
           "Documents Returned: "
             +:+ format_value (get_default "documentsReturned" (VInt 0) stats) ]
  | Some other =>
      Raise (AttributeError ("'" +:+ type_name other
                             +:+ "' object has no attribute 'get'"))
  end.
Proof.
  unfold Index.execution_lines. cbn [item_if_in].
  destruct (dict_get "executionStats" d) as [stats|]; [|reflexivity].
  destruct stats; reflexivity.
Qed.

Lemma index_lines_dict d :
  Index.index_lines (VDict d) =
  match dict_get "indexUsed" d with
  | None => Ok []
  | Some index =>
      if truthy index then
        match index with
        | VDict entries =>
            Ok [ "Index Used: "
                   +:+ format_value (get_default "name" (VStr "unknown") entries) ]
        | _ => Raise (AttributeError ("'" +:+ type_name index
                                      +:+ "' object has no attribute 'get'"))
        end
      else Ok [ "Index Used: None (Collection scan)"; index_advice ]
  end.
Proof.
  unfold Index.index_lines. cbn [item_if_in].
  destruct (dict_get "indexUsed" d) as [index|]; [|reflexivity].
  destruct (truthy index); [|reflexivity].
  destruct index; reflexivity.
Qed.

Lemma optimized_lines_dict d :
  Index.optimized_lines (VDict d) =
  Ok match dict_get "optimized" d with
     | None => []
     | Some optimized =>
         if truthy optimized then [ "✓ Query is optimized" ]
         else [ "⚠️  Query could be optimized" ]
     end.
Proof.
  unfold Index.optimized_lines. cbn [item_if_in].
  destruct (dict_get "optimized" d) as [optimized|]; [|reflexivity].
  destruct (truthy optimized); reflexivity.
Qed.

Lemma covered_lines_dict d :
  Index.covered_lines (VDict d) =
  Ok match dict_get "coveredQuery" d with
     | None => []
     | Some covered =>
         if truthy covered then [ "✓ Covered query (index-only)" ] else []
     end.
Proof.
  unfold Index.covered_lines. cbn [item_if_in].
  destruct (dict_get "coveredQuery" d) as [covered|]; [|reflexivity].
  destruct (truthy covered); reflexivity.
Qed.

Lemma report_lines_dict d :
  Index.report_lines (VDict d) =
  match Index.execution_lines (VDict d), Index.index_lines (VDict d) with
  | Ok l1, Ok l2 =>
      Ok (l1 ++ l2 ++
          match dict_get "optimized" d with
          | None => []
          | Some optimized =>
              if truthy optimized then [ "✓ Query is optimized" ]
              else [ "⚠️  Query could be optimized" ]
          end ++
          match dict_get "coveredQuery" d with
          | None => []
          | Some covered =>
              if truthy covered then [ "✓ Covered query (index-only)" ] else []
          end)
  | Raise e, _ => Raise e
  | Ok _, Raise e => Raise e
  end.
Proof.
  unfold Index.report_lines.
  rewrite optimized_lines_dict, covered_lines_dict.
  destruct (Index.execution_lines (VDict d)); [|reflexivity].
  destruct (Index.index_lines (VDict d)); reflexivity.
Qed.

Lemma execution_lines_start (explain_result : value) lines :
  Index.execution_lines explain_result = Ok lines ->
  Forall not_the_apology lines /\ ~ In index_advice lines /\
  (List.length lines <= 3)%nat.
Proof.
  unfold Index.execution_lines.
  destruct (item_if_in "executionStats" explain_result) as [[stats|]|e];
    [| intros [= <-]; repeat split; [constructor | intros [] | simpl; lia]
     | discriminate].
  destruct (py_get stats "executionTimeMs" (VInt 0)) as [time|e],
    (py_get stats "documentsExamined" (VInt 0)) as [examined|e'],
    (py_get stats "documentsReturned" (VInt 0)) as [returned|e''];
    try discriminate.
  intros [= <-]. repeat split.
  - repeat constructor; eexists _, _; (split; [reflexivity | discriminate]).
  - intros [Hin|[Hin|[Hin|[]]]]; discriminate Hin.
  - simpl. lia.
Qed.

Lemma index_lines_start (explain_result : value) lines :
  Index.index_lines explain_result = Ok lines ->
  Forall not_the_apology lines /\ (List.length lines <= 2)%nat.
Proof.
  unfold Index.index_lines.
  destruct (item_if_in "indexUsed" explain_result) as [[index|]|e];
    [| intros [= <-]; split; [constructor | simpl; lia] | discriminate].
  destruct (truthy index).
  - destruct (py_get index "name" (VStr "unknown")) as [name|e]; [|discriminate].
    intros [= <-]. split; [|simpl; lia].
    repeat constructor; eexists _, _; (split; [reflexivity | discriminate]).
  - intros [= <-]. split; [|simpl; lia].
    repeat constructor; eexists _, _; (split; [reflexivity | discriminate]).
Qed.

Lemma optimized_lines_start (explain_result : value) lines :
  Index.optimized_lines explain_result = Ok lines ->
  Forall not_the_apology lines /\ ~ In index_advice lines /\
  (List.length lines <= 1)%nat.
Proof.
  unfold Index.optimized_lines.
  destruct (item_if_in "optimized" explain_result) as [[optimized|]|e];
    [| intros [= <-]; repeat split; [constructor | intros [] | simpl; lia]
     | discriminate].
  destruct (truthy optimized); intros [= <-]; repeat split;
    try (repeat constructor; eexists _, _; (split; [reflexivity | discriminate]));
    try (simpl; lia);
    intros [Hin|[]]; discriminate Hin.
Qed.

Lemma covered_lines_start (explain_result : value) lines :
  Index.covered_lines explain_result = Ok lines ->
  Forall not_the_apology lines /\ ~ In index_advice lines /\
  (List.length lines <= 1)%nat.
Proof.
  unfold Index.covered_lines.
  destruct (item_if_in "coveredQuery" explain_result) as [[covered|]|e];
    [| intros [= <-]; repeat split; [constructor | intros [] | simpl; lia]
     | discriminate].
  destruct (truthy covered); intros [= <-].
  - split; [|split].
    + repeat constructor; eexists _, _; (split; [reflexivity | discriminate]).
    + intros [Hin|[]]; discriminate Hin.
    + simpl. lia.
  - split; [constructor | split; [intros [] | simpl; lia]].
Qed.

Lemma report_lines_parts (explain_result : value) lines :
  Index.report_lines explain_result = Ok lines ->
  exists l1 l2 l3 l4,
    lines = l1 ++ l2 ++ l3 ++ l4 /\
    Index.execution_lines explain_result = Ok l1 /\
    Index.index_lines explain_result = Ok l2 /\
    Index.optimized_lines explain_result = Ok l3 /\
    Index.covered_lines explain_result = Ok l4.
Proof.
  unfold Index.report_lines.
  destruct (Index.execution_lines explain_result) as [l1|e]; [|discriminate].
  destruct (Index.index_lines explain_result) as [l2|e]; [|discriminate].
  destruct (Index.optimized_lines explain_result) as [l3|e]; [|discriminate].
  destruct (Index.covered_lines explain_result) as [l4|e]; [|discriminate].
  intros [= <-]. exists l1, l2, l3, l4. repeat split.
Qed.

Lemma join_not_the_apology lines :
  Forall not_the_apology lines ->
  join newline lines <> "No explain data available".
Proof.
  intros Hall. destruct Hall as [|line more (c & rest & -> & Hc) _].
  - discriminate.
  - unfold join. cbn [String.concat].
    destruct more; cbn; intros [= Heq _]; congruence.
Qed.

(** X16: [analyze_query_plan] answers ["No explain data available"] exactly
    when the explain result counts as false: for one that counts as true
    the report, when there is one, is a different text, the empty one
    when none of the four keys is there. *)
Theorem no_explain_data_only_when_empty (explain_result : value) :
  (Index.analyze_query_plan explain_result = Ok "No explain data available"
   <-> truthy explain_result = false) /\
  (forall d, d <> [] ->
     dict_get "executionStats" d = None -> dict_get "indexUsed" d = None ->
     dict_get "optimized" d = None -> dict_get "coveredQuery" d = None ->
     Index.analyze_query_plan (VDict d) = Ok "").
Proof.
  split.
  - unfold Index.analyze_query_plan.
    destruct (truthy explain_result) eqn:Ht; cbn [negb]; [|split; reflexivity].
    split; [|discriminate].
    destruct (Index.report_lines explain_result) as [lines|e] eqn:Hlines;
      [|discriminate].
    intros [= Heq]. exfalso. revert Heq. apply join_not_the_apology.
    destruct (report_lines_parts _ _ Hlines)
      as (l1 & l2 & l3 & l4 & -> & H1 & H2 & H3 & H4).
    apply execution_lines_start in H1 as (H1 & _).
    apply index_lines_start in H2 as (H2 & _).
    apply optimized_lines_start in H3 as (H3 & _).
    apply covered_lines_start in H4 as (H4 & _).
    repeat (apply Forall_app; split); assumption.
  - intros d Hd Hstats Hindex Hopt Hcov.
    unfold Index.analyze_query_plan.
    destruct d as [|entry d]; [congruence|]. cbn [truthy negb].
    rewrite report_lines_dict, execution_lines_dict, index_lines_dict.
    rewrite Hstats, Hindex, Hopt, Hcov. reflexivity.
Qed.

(** X17: On a mapping [analyze_query_plan] raises exactly when it has to call
    [get] on something that is no mapping, an [executionStats] or an
    [indexUsed] that counts as true (the name of an index, say), and what
    it raises then is [AttributeError]; otherwise it returns a report. *)
Theorem plan_analysis_fails_on_non_mapping_parts d :
  if get_on_non_dict d
  then exists text,
         Index.analyze_query_plan (VDict d) = Raise (AttributeError text)
  else exists report, Index.analyze_query_plan (VDict d) = Ok report.
Proof.
  unfold get_on_non_dict, Index.analyze_query_plan.
  destruct d as [|entry d]; [eexists; reflexivity|].
  cbn [truthy negb].
  rewrite report_lines_dict, execution_lines_dict, index_lines_dict.
  destruct (dict_get "executionStats" (entry :: d)) as [stats|].
  - destruct stats; cbn [is_dict negb orb]; try (eexists; reflexivity);
      (destruct (dict_get "indexUsed" (entry :: d)) as [index|];
       [|eexists; reflexivity]);
      (destruct (truthy index); cbn [andb]; [|eexists; reflexivity]);
      destruct index; cbn [is_dict negb]; eexists; reflexivity.
  - cbn [orb].
    destruct (dict_get "indexUsed" (entry :: d)) as [index|];
      [|eexists; reflexivity].
    destruct (truthy index); cbn [andb]; [|eexists; reflexivity].
    destruct index; cbn [is_dict negb]; eexists; reflexivity.
Qed.

(** X18: The report of a plan has at most seven lines, and the advice to add
    an index is among them exactly when [indexUsed] is present and counts
    as false. *)
Theorem index_advice_only_without_index d lines :
  Index.report_lines (VDict d) = Ok lines ->
  (In index_advice lines <->
   exists index, dict_get "indexUsed" d = Some index /\ truthy index = false) /\
  (List.length lines <= 7)%nat /\
  (d <> [] -> Index.analyze_query_plan (VDict d) = Ok (join newline lines)).
Proof.
  intros Hlines.
  destruct (report_lines_parts _ _ Hlines)
    as (l1 & l2 & l3 & l4 & -> & H1 & H2 & H3 & H4).
  pose proof (execution_lines_start _ _ H1) as (_ & Hno1 & Hlen1).
  pose proof (index_lines_start _ _ H2) as (_ & Hlen2).
  pose proof (optimized_lines_start _ _ H3) as (_ & Hno3 & Hlen3).
  pose proof (covered_lines_start _ _ H4) as (_ & Hno4 & Hlen4).
  split; [|split].
  - rewrite !in_app_iff.
    assert (Hl2 : In index_advice l2 <->
      exists index, dict_get "indexUsed" d = Some index /\ truthy index = false).
    { rewrite index_lines_dict in H2.
      destruct (dict_get "indexUsed" d) as [index|].
      - destruct (truthy index) eqn:Ht.
        + split.
          * destruct index; try discriminate. injection H2 as <-.
            intros [Hin|[]]. discriminate Hin.
          * intros (index' & [= <-] & Hf). congruence.
        + injection H2 as <-. split; [eauto|]. intros _. right. left. reflexivity.
      - injection H2 as <-. split; [intros [] | intros (index & Hi & _); discriminate]. }
    rewrite <- Hl2. tauto.
  - rewrite !length_app. lia.
  - intros Hd. unfold Index.analyze_query_plan.
    destruct d as [|entry d]; [congruence|]. cbn [truthy negb].
    rewrite Hlines. reflexivity.
Qed.

End PlanFacts.

Lemma index_advice_only_without_index_witness :
  (In index_advice
      [ "Index Used: None (Collection scan)"; index_advice;
        "✓ Query is optimized" ] <->
   exists index,
     dict_get "indexUsed" [("indexUsed", VNone); ("optimized", VBool true)]
       = Some index /\ truthy index = false) /\
  (List.length [ "Index Used: None (Collection scan)"; index_advice;
                 "✓ Query is optimized" ] <= 7)%nat /\
  ([("indexUsed", VNone); ("optimized", VBool true)] <> [] ->
   @Index.analyze_query_plan sample_library
     (VDict [("indexUsed", VNone); ("optimized", VBool true)]) =
   Ok (join newline [ "Index Used: None (Collection scan)"; index_advice;
                      "✓ Query is optimized" ])).
Proof.
  apply (@index_advice_only_without_index sample_library
           [("indexUsed", VNone); ("optimized", VBool true)]).
  reflexivity.
Defined.

(** ** [UpdateBuilder.combine], composed *)

Section CombineMoreFacts.
Context {A : Type}.
Implicit Types (d other : dict A) (result u : UpdateBuilder.update_doc A).

Import UpdateBuilder.

Lemma dict_update_fresh other : forall d,
  NoDup (keys other) ->
  (forall k, k ∈ keys other -> dict_get k d = None) ->
  dict_update d other = d ++ other.
Proof.
  unfold keys.
  induction other as [|[k v] other IH]; intros d Hnodup Hfresh.
  - rewrite app_nil_r. reflexivity.
  - apply NoDup_cons in Hnodup as [Hk Hnodup].
    change (dict_update d ((k, v) :: other))
      with (dict_update (dict_set k v d) other).
    rewrite dict_set_absent by (apply Hfresh; left).
    rewrite IH; [rewrite <- app_assoc; reflexivity | exact Hnodup |].
    intros k' Hk'. rewrite dict_get_app, (Hfresh k') by (right; exact Hk').
    cbn [dict_get]. destruct (String.eqb k k') eqn:E; [|reflexivity].
    apply String.eqb_eq in E. subst k'. contradiction.
Qed.

Lemma fold_combine_entry_fresh u : forall result,
  well_formed u ->
  (forall operator, operator ∈ keys u -> dict_get operator result = None) ->
  fold_left combine_entry u result = result ++ u.
Proof.
  unfold well_formed, keys.
  induction u as [|[operator fields] u IH]; intros result [Hnodup Hall] Hfresh.
  - rewrite app_nil_r. reflexivity.
  - apply NoDup_cons in Hnodup as [Hop Hnodup].
    apply Forall_cons in Hall as [Hfields Hall].
    cbn [fold_left]. rewrite combine_entry_merge. unfold merge_operator.
    rewrite (Hfresh operator) by left.
    change (fold_left _ fields ?c) with (dict_update c fields).
    rewrite (dict_update_fresh fields []) by (auto; reflexivity).
    rewrite dict_set_absent by (apply Hfresh; left). cbn [app].
    rewrite IH; [rewrite <- app_assoc; reflexivity | split; assumption |].
    intros operator' Hin.
    rewrite dict_get_app, (Hfresh operator') by (right; exact Hin).
    cbn [dict_get]. destruct (String.eqb operator operator') eqn:E; [|reflexivity].
    apply String.eqb_eq in E. subst operator'. contradiction.
Qed.

Lemma combine_single u : well_formed u -> combine [u] = u.
Proof.
  intros Hu. unfold combine, combine_update. cbn [fold_left].
  rewrite fold_combine_entry_fresh; auto.
Qed.

Lemma combine_nested (updates more : list (update_doc A)) :
  combine (combine updates :: more) = combine (updates ++ more).
Proof.
  unfold combine at 1 3. cbn [fold_left]. rewrite fold_left_app.
  fold (combine updates). f_equal.
  change (combine_update [] (combine updates)) with (combine [combine updates]).
  apply combine_single, well_formed_combine.
Qed.

Lemma bindings_app (updates more : list (update_doc A)) :
  bindings (updates ++ more) = bindings updates ++ bindings more.
Proof. unfold bindings. apply flat_map_app. Qed.

Lemma lookup2_combine_commutes (a b : update_doc A) operator field :
  last_binding operator field (bindings [a]) = None \/
  last_binding operator field (bindings [b]) = None ->
  lookup2 operator field (combine [a; b]) = lookup2 operator field (combine [b; a]).
Proof.
  intros Hdisjoint. rewrite !lookup2_combine.
  change [a; b] with ([a] ++ [b]). change [b; a] with ([b] ++ [a]).
  rewrite !bindings_app, !last_binding_app.
  destruct Hdisjoint as [Ha|Hb].
  - rewrite Ha. destruct (last_binding operator field (bindings [b])); reflexivity.
  - rewrite Hb. destruct (last_binding operator field (bindings [a])); reflexivity.
Qed.

End CombineMoreFacts.

(** X19: Combining can be done in steps: a combined update put first among
    further updates gives what combining all of them at once gives, and
    combining a combined update alone gives it back. *)
Theorem combine_in_steps (updates more : list (UpdateBuilder.update_doc value)) :
  UpdateBuilder.combine (UpdateBuilder.combine updates :: more) =
    UpdateBuilder.combine (updates ++ more) /\
  UpdateBuilder.combine [UpdateBuilder.combine updates] =
    UpdateBuilder.combine updates.
Proof.
  split; [apply combine_nested|].
  rewrite combine_nested, app_nil_r. reflexivity.
Qed.

(** X20: [combine] of a single update that holds no key twice, such as
    anything a builder of [UpdateBuilder] returns, is that update. *)
Theorem combine_of_one_update (u : UpdateBuilder.update_doc value) :
  UpdateBuilder.well_formed u ->
  UpdateBuilder.combine [u] = u.
Proof. apply combine_single. Qed.

Lemma combine_of_one_update_witness :
  UpdateBuilder.combine [UpdateBuilder.set "name" (VStr "Alice")] =
  UpdateBuilder.set "name" (VStr "Alice").
Proof.
  apply (combine_of_one_update (UpdateBuilder.set "name" (VStr "Alice"))).
  split.
  - refine (bool_decide_unpack _ _). vm_compute. exact I.
  - repeat constructor. simpl. intros Hin. inversion Hin.
Defined.

(** X21: The order of two updates matters only where they meet: when no
    field is set under the same operator by both, the two orders give the
    same operators and the same value for every field. *)
Theorem combine_commutes_when_disjoint (a b : UpdateBuilder.update_doc value) :
  (forall operator field,
     UpdateBuilder.last_binding operator field (UpdateBuilder.bindings [a]) = None \/
     UpdateBuilder.last_binding operator field (UpdateBuilder.bindings [b]) = None) ->
  forall operator,
    dict_contains operator (UpdateBuilder.combine [a; b]) =
    dict_contains operator (UpdateBuilder.combine [b; a]) /\
    forall field,
      UpdateBuilder.lookup2 operator field (UpdateBuilder.combine [a; b]) =
      UpdateBuilder.lookup2 operator field (UpdateBuilder.combine [b; a]).
Proof.
  intros Hdisjoint operator. split.
  - rewrite !contains_combine. cbn [existsb]. rewrite !orb_false_r. apply orb_comm.
  - intros field. apply lookup2_combine_commutes, Hdisjoint.
Qed.

Lemma combine_commutes_when_disjoint_witness :
  dict_contains "$set"
    (UpdateBuilder.combine [UpdateBuilder.set "a" (VInt 1);
                            UpdateBuilder.set "b" (VInt 2)]) =
  dict_contains "$set"
    (UpdateBuilder.combine [UpdateBuilder.set "b" (VInt 2);
                            UpdateBuilder.set "a" (VInt 1)]) /\
  forall field,
    UpdateBuilder.lookup2 "$set" field
      (UpdateBuilder.combine [UpdateBuilder.set "a" (VInt 1);
                              UpdateBuilder.set "b" (VInt 2)]) =
    UpdateBuilder.lookup2 "$set" field
      (UpdateBuilder.combine [UpdateBuilder.set "b" (VInt 2);
                              UpdateBuilder.set "a" (VInt 1)]).
Proof.
  apply (combine_commutes_when_disjoint (UpdateBuilder.set "a" (VInt 1))
           (UpdateBuilder.set "b" (VInt 2))).
  intros operator field.
  unfold UpdateBuilder.last_binding, UpdateBuilder.bindings,
    UpdateBuilder.entry_bindings, UpdateBuilder.set.
  cbn [flat_map map fold_left fst snd app].
  destruct (String.eqb "a" field) eqn:Ea.
  - right. apply String.eqb_eq in Ea. subst field.
    destruct (String.eqb "$set" operator); reflexivity.
  - left. destruct (String.eqb "$set" operator); reflexivity.
Defined.

(** ** [Aggregation.group], continued *)

(** X22: When the accumulators have no output key [_id], the stage holds the
    group key under [_id] first and then the accumulators, in the order
    in which they were given. *)
Theorem group_keeps_key_and_order (group_by : value) (accumulators : dict value) :
  NoDup (keys accumulators) ->
  dict_get "_id" accumulators = None ->
  Aggregation.group group_by accumulators =
    VDict [("$group", VDict (("_id", group_by) :: accumulators))].
Proof.
  intros Hnodup Hid. unfold Aggregation.group. do 3 f_equal.
  rewrite dict_update_fresh; [reflexivity | exact Hnodup |].
  intros k Hk. cbn [dict_get].
  destruct (String.eqb "_id" k) eqn:E; [|reflexivity].
  apply String.eqb_eq in E. subst k.
  apply dict_get_None_keys in Hid. contradiction.
Qed.

Lemma group_keeps_key_and_order_witness :
  Aggregation.group (VStr "$city")
    [("avgAge", Aggregation.avg (VStr "$age")); ("count", Aggregation.count)] =
  VDict [("$group", VDict [("_id", VStr "$city");
                           ("avgAge", Aggregation.avg (VStr "$age"));
                           ("count", Aggregation.count)])].
Proof.
  apply (group_keeps_key_and_order (VStr "$city")
           [("avgAge", Aggregation.avg (VStr "$age"));
            ("count", Aggregation.count)]).
  - refine (bool_decide_unpack _ _). vm_compute. exact I.
  - reflexivity.
Defined.

(** ** A body that is no object *)

Section BodyShapeFacts.
Context `{Library}.

(** X3: A response without error status whose body decodes to something
    other than an object (a list, null, a number) makes [_request] raise
    [AttributeError], which is neither its transport-level nor its
    API-level error; [ping] still returns [False]. *)
Theorem non_object_body_raises_attribute_error (self : Client.Client)
    (method path : string) (body params : option value) (w : world)
    (r : response) (data : value) :
  (forall rq, server w (wire w) rq = Responds r) ->
  ~ (400 <= status_code r < 600)%Z ->
  decoded r = inr data ->
  is_dict data = false ->
  (Client._request self method path body params w).1 =
    Raise (AttributeError ("'" +:+ type_name data
                           +:+ "' object has no attribute 'get'")) /\
  is_transport_error (Client._request self method path body params w).1 = false /\
  is_api_error (Client._request self method path body params w).1 = false /\
  (Client.ping self w).1 = Ok (VBool false).
Proof.
  intros Hserver Hstatus Hdec Hdata.
  apply no_http_error in Hstatus.
  assert (Hreq : forall m p b q,
    (Client._request self m p b q w).1 =
    Raise (AttributeError ("'" +:+ type_name data
                           +:+ "' object has no attribute 'get'"))).
  { intros m p b q. rewrite request_run, Hserver. cbn [fst].
    rewrite Hstatus, Hdec. destruct data; try discriminate; reflexivity. }
  rewrite Hreq. repeat apply conj; try reflexivity.
  unfold Client.ping, try_except.
  rewrite (surjective_pairing ((_ <- _ ;; _) w)).
  rewrite (bind_request_raise self "GET" "/ping" None None _ w _ (Hreq _ _ _ _)).
  reflexivity.
Qed.

End BodyShapeFacts.

Lemma non_object_body_raises_attribute_error_witness :
  (@Client._request sample_library sample_client "GET" "/stats" None None
     (canned (http_response 200 (VList [])))).1 =
    Raise (AttributeError "'list' object has no attribute 'get'") /\
  is_transport_error
    (@Client._request sample_library sample_client "GET" "/stats" None None
       (canned (http_response 200 (VList [])))).1 = false /\
  is_api_error
    (@Client._request sample_library sample_client "GET" "/stats" None None
       (canned (http_response 200 (VList [])))).1 = false /\
  (@Client.ping sample_library sample_client
     (canned (http_response 200 (VList [])))).1 = Ok (VBool false).
Proof.
  apply (@non_object_body_raises_attribute_error sample_library sample_client
           "GET" "/stats" None None (canned (http_response 200 (VList [])))
           (plain_response 200 (VList [])) (VList [])).
  - intros rq. reflexivity.
  - simpl. lia.
  - reflexivity.
  - reflexivity.
Defined.
